(** * SharedSpi: the shared SPI bus driver of CoreNG

    A shallow embedding of [libraries/SharedSpi/SharedSpi.cpp] and the
    properties of its bus lock, device setup, chip-select sequencing and
    polled transfer loop.

    The driver talks to a peripheral through status polls, data-register
    accesses and calls into the vendor (ASF) driver layer.  The peripheral is
    an interface ([SpiHw]); every access is recorded in a trace, which is
    what the properties below are stated on. *)

From Stdlib Require Import ZArith List Bool Lia.
Import ListNotations.
Local Open Scope Z_scope.

(** ** Machine integers *)

(** [uint32_t], [uint8_t] and [int16_t] conversions. *)
Definition u32 (x : Z) : Z := x mod 2 ^ 32.
Definition u8 (x : Z) : Z := x mod 2 ^ 8.
Definition s16 (x : Z) : Z := (x + 2 ^ 15) mod 2 ^ 16 - 2 ^ 15.

(** ** Build configuration *)

(** The file is compiled for one chip family.  [SAM4E] builds drive a USART
    in SPI mode ([USART_SSPI]); every other build drives the SPI peripheral
    ([SSPI]), and [SAM3XA] builds add the chip-select programming and the
    16-bit transfer.  The [SAM3XA] blocks name [SSPI], which a [SAM4E] build
    does not define, so the two are exclusive. *)
Inductive chip : Type := ChipSAM4E | ChipSAM3XA | ChipOther.

Record build : Type := mkBuild {
  target : chip;
  USE_SAM3X_DMAC : bool
}.

Definition SAM4E (b : build) : bool :=
  match target b with ChipSAM4E => true | _ => false end.

Definition SAM3XA (b : build) : bool :=
  match target b with ChipSAM3XA => true | _ => false end.

(** ** Constants *)

Definition MAX_NUM_WITH_DECODER : Z := 0x10.
Definition MAX_NUM_WITHOUT_DECODER : Z := 0x04.
Definition NONE_CHIP_SELECT_ID : Z := 0x0f.
Definition DEFAULT_CHIP_ID : Z := 1.

(** Time-out value (number of attempts). *)
Definition SPI_TIMEOUT : Z := 15000.

(** Register field macros that come from the chip headers.  They are not
    part of the driver file, so the model takes them as a parameter. *)
Record sam_header : Type := mkHeader {
  US_CR_RSTRX : Z;
  US_CR_RSTTX : Z;
  US_CR_RXEN : Z;
  US_CR_RXDIS : Z;
  US_CR_TXEN : Z;
  US_CR_TXDIS : Z;
  US_CR_RSTSTA : Z;
  US_MR_USART_MODE_SPI_MASTER : Z;
  US_MR_USCLKS_MCK : Z;
  US_MR_CHRL_8_BIT : Z;
  US_MR_CHMODE_NORMAL : Z;
  US_MR_CLKO : Z;
  US_MR_CPOL : Z;
  US_MR_CPHA : Z;
  SPI_CSR_BITS_8_BIT : Z;
  SPI_CSR_BITS_16_BIT : Z;
  SPI_TDR_LASTXFER : Z
}.

(** The values the SAM3X and SAM4E device headers give these macros. *)
Definition sam_device_header : sam_header := {|
  US_CR_RSTRX := Z.shiftl 1 2;
  US_CR_RSTTX := Z.shiftl 1 3;
  US_CR_RXEN := Z.shiftl 1 4;
  US_CR_RXDIS := Z.shiftl 1 5;
  US_CR_TXEN := Z.shiftl 1 6;
  US_CR_TXDIS := Z.shiftl 1 7;
  US_CR_RSTSTA := Z.shiftl 1 8;
  US_MR_USART_MODE_SPI_MASTER := 0xE;
  US_MR_USCLKS_MCK := 0;
  US_MR_CHRL_8_BIT := Z.shiftl 3 6;
  US_MR_CHMODE_NORMAL := 0;
  US_MR_CLKO := Z.shiftl 1 18;
  US_MR_CPOL := Z.shiftl 1 16;
  US_MR_CPHA := Z.shiftl 1 8;
  SPI_CSR_BITS_8_BIT := 0;
  SPI_CSR_BITS_16_BIT := Z.shiftl 8 4;
  SPI_TDR_LASTXFER := Z.shiftl 1 24
|}.

(** The mode-register word that [sspi_master_setup_device] starts from. *)
Definition us_mr_base (K : sam_header) : Z :=
  Z.lor (Z.lor (Z.lor (Z.lor (US_MR_USART_MODE_SPI_MASTER K) (US_MR_USCLKS_MCK K))
                      (US_MR_CHRL_8_BIT K))
               (US_MR_CHMODE_NORMAL K))
        (US_MR_CLKO K).

(** What the properties need of the header: the polarity and phase fields
    are non-empty, distinct from each other and from the other fields of
    the mode word. *)
Definition header_ok (K : sam_header) : bool :=
  negb (US_MR_CPOL K =? 0) && negb (US_MR_CPHA K =? 0)
  && (Z.land (us_mr_base K) (US_MR_CPOL K) =? 0)
  && (Z.land (us_mr_base K) (US_MR_CPHA K) =? 0)
  && (Z.land (US_MR_CPOL K) (US_MR_CPHA K) =? 0).

(** ** Data *)

Inductive spi_status_t : Type := SPI_OK | SPI_ERROR_TIMEOUT.

(** The fields of [struct sspi_device] the driver uses. *)
Record sspi_device : Type := mkDevice {
  id : Z;
  csPin : Z;
  bits : Z
}.

Inductive pin_level : Type := LOW | HIGH.

Inductive pin_name : Type :=
| APIN_USART1_SCK | APIN_USART1_MOSI | APIN_USART1_MISO
| APIN_SPI_SCK | APIN_SPI_MOSI | APIN_SPI_MISO.

Inductive periph_id : Type := SSPI_ID | SPI_INTERFACE_ID | ID_DMAC.

(** Status flags the wait loops poll. *)
Inductive status_flag : Type := TxReady | TxEmpty | RxReady.

(** Registers the driver accesses directly. *)
Inductive reg : Type :=
| US_IDR | US_CR | US_MR | US_BRGR | US_THR | US_RHR | SPI_TDR | SPI_RDR.

(** Calls into the vendor driver layer and the pin layer, with their
    arguments. *)
Inductive asf_call : Type :=
| ConfigurePin (p : pin_name)
| pmc_enable_periph_clk (p : periph_id)
| spi_reset
| spi_set_master_mode
| spi_disable_mode_fault_detect
| spi_disable_loopback
| spi_set_peripheral_chip_select_value (v : Z)
| spi_set_fixed_peripheral_select
| spi_disable_peripheral_select_decode
| dmac_disable
| dmac_set_priority_mode_fixed
| dmac_enable
| spi_set_bits_per_transfer (cs : Z) (b : Z)
| spi_set_baudrate_div (cs : Z) (d : Z)
| spi_set_clock_polarity (cs : Z) (p : Z)
| spi_set_clock_phase (cs : Z) (p : Z)
| spi_enable
| spi_set_lastxfer
| digitalWrite (pin : Z) (l : pin_level).

Inductive event : Type :=
| EvPoll (f : status_flag) (ready : bool)
| EvWrite (r : reg) (v : Z)
| EvRead (r : reg) (v : Z)
| EvCall (c : asf_call).

(** ** The peripheral *)

(** How the hardware answers: a status poll and a register read may change
    the peripheral's state, as may a register write or a driver call. *)
Class SpiHw (D : Type) : Type := {
  hw_status : status_flag -> D -> bool * D;
  hw_write : reg -> Z -> D -> D;
  hw_read : reg -> D -> Z * D;
  hw_call : asf_call -> D -> D
}.

(** ** Program state *)

Record world (D : Type) : Type := mkWorld {
  sspiLocked : bool;          (* static lock flag *)
  init_comms : bool;          (* static of sspi_master_init *)
  irq_enabled : bool;         (* interrupt mask *)
  SystemCoreClock : Z;        (* core clock in Hz *)
  mem : Z -> Z;               (* byte-addressed RAM *)
  dev : D;                    (* the peripheral *)
  trace : list event          (* accesses so far, oldest first *)
}.

Arguments mkWorld {D}.
Arguments sspiLocked {D}.
Arguments init_comms {D}.
Arguments irq_enabled {D}.
Arguments SystemCoreClock {D}.
Arguments mem {D}.
Arguments dev {D}.
Arguments trace {D}.

(** A call returns a value and a new state, runs out of loop fuel, or hits
    behaviour C leaves undefined. *)
Inductive result (D A : Type) : Type :=
| Ret (a : A) (w : world D)
| OutOfFuel
| Undefined.

Arguments Ret {D A}.
Arguments OutOfFuel {D A}.
Arguments Undefined {D A}.

Definition M (D A : Type) : Type := world D -> result D A.

Definition ret {D A : Type} (a : A) : M D A := fun w => Ret a w.

Definition bind {D A B : Type} (c : M D A) (k : A -> M D B) : M D B :=
  fun w => match c w with
           | Ret a w' => k a w'
           | OutOfFuel => OutOfFuel
           | Undefined => Undefined
           end.

Notation "x <- c ;; k" := (bind c (fun x => k))
  (at level 61, c at next level, right associativity).
Notation "c ;;; k" := (bind c (fun _ => k))
  (at level 61, right associativity).

Definition undefined {D A : Type} : M D A := fun _ => Undefined.

Definition mem_store (m : Z -> Z) (a v : Z) : Z -> Z :=
  fun x => if x =? a then v else m x.

Section Driver.

Context {D : Type} {HW : SpiHw D}.

Local Abbreviation Cmd := (M D).

(** *** Primitive accesses *)

Definition record (e : event) (d : D) : Cmd unit := fun w =>
  Ret tt (mkWorld (sspiLocked w) (init_comms w) (irq_enabled w)
                  (SystemCoreClock w) (mem w) d (trace w ++ [e])).

Definition poll (f : status_flag) : Cmd bool := fun w =>
  let (r, d) := hw_status f (dev w) in
  (record (EvPoll f r) d ;;; ret r) w.

Definition reg_write (r : reg) (v : Z) : Cmd unit := fun w =>
  record (EvWrite r v) (hw_write r v (dev w)) w.

Definition reg_read (r : reg) : Cmd Z := fun w =>
  let (v, d) := hw_read r (dev w) in
  (record (EvRead r v) d ;;; ret v) w.

Definition call (c : asf_call) : Cmd unit := fun w =>
  record (EvCall c) (hw_call c (dev w)) w.

Definition load8 (a : Z) : Cmd Z := fun w => Ret (u8 (mem w a)) w.

Definition store8 (a v : Z) : Cmd unit := fun w =>
  Ret tt (mkWorld (sspiLocked w) (init_comms w) (irq_enabled w)
                  (SystemCoreClock w) (mem_store (mem w) a v) (dev w) (trace w)).

Definition get_clock : Cmd Z := fun w => Ret (SystemCoreClock w) w.

(** Modelled from the spec: [cpu_irq_save] and [cpu_irq_restore] belong to
    the vendor layer; the spec has the flag changed inside an
    interruption-disabled critical section.  Saving returns the current
    mask and disables interrupts, restoring puts the saved mask back. *)
Definition cpu_irq_save : Cmd bool := fun w =>
  Ret (irq_enabled w)
      (mkWorld (sspiLocked w) (init_comms w) false
               (SystemCoreClock w) (mem w) (dev w) (trace w)).

Definition cpu_irq_restore (flags : bool) : Cmd unit := fun w =>
  Ret tt (mkWorld (sspiLocked w) (init_comms w) flags
                  (SystemCoreClock w) (mem w) (dev w) (trace w)).

Definition get_sspiLocked : Cmd bool := fun w => Ret (sspiLocked w) w.

Definition set_sspiLocked (v : bool) : Cmd unit := fun w =>
  Ret tt (mkWorld v (init_comms w) (irq_enabled w)
                  (SystemCoreClock w) (mem w) (dev w) (trace w)).

Definition get_init_comms : Cmd bool := fun w => Ret (init_comms w) w.

Definition set_init_comms (v : bool) : Cmd unit := fun w =>
  Ret tt (mkWorld (sspiLocked w) v (irq_enabled w)
                  (SystemCoreClock w) (mem w) (dev w) (trace w)).

(** *** Bus lock *)

(** Gain exclusive use of the bus: true if successful, false if busy. *)
Definition sspi_acquire : Cmd bool :=
  flags <- cpu_irq_save ;;
  locked <- get_sspiLocked ;;
  rslt <- (if locked then ret false
           else set_sspiLocked true ;;; ret true) ;;
  cpu_irq_restore flags ;;;
  ret rslt.

Definition sspi_release : Cmd unit := set_sspiLocked false.

(** *** Wait loops *)

(** [while (!ready()) { if (--timeout == 0) return true; } return false;]
    with a 32-bit [timeout].  [fuel] bounds the number of loop tests. *)
Fixpoint wait_predec (f : status_flag) (fuel : nat) (timeout : Z) : Cmd bool :=
  match fuel with
  | O => fun _ => OutOfFuel
  | S fuel' =>
      ready <- poll f ;;
      if ready then ret false
      else
        let timeout' := u32 (timeout - 1) in
        if timeout' =? 0 then ret true
        else wait_predec f fuel' timeout'
  end.

(** [while (!ready()) { if (!timeout--) return true; } return false;] *)
Fixpoint wait_postdec (f : status_flag) (fuel : nat) (timeout : Z) : Cmd bool :=
  match fuel with
  | O => fun _ => OutOfFuel
  | S fuel' =>
      ready <- poll f ;;
      if ready then ret false
      else
        if timeout =? 0 then ret true
        else wait_postdec f fuel' (u32 (timeout - 1))
  end.

(** Wait for transmitter ready, returning true if timed out.  The two
    branches of the source differ only in the peripheral they poll. *)
Definition waitForTxReady (fuel : nat) : Cmd bool :=
  wait_predec TxReady fuel SPI_TIMEOUT.

(** Wait for transmitter empty, returning true if timed out. *)
Definition waitForTxEmpty (fuel : nat) : Cmd bool :=
  wait_postdec TxEmpty fuel SPI_TIMEOUT.

(** Wait for receive data available, returning true if timed out. *)
Definition waitForRxReady (fuel : nat) : Cmd bool :=
  wait_predec RxReady fuel SPI_TIMEOUT.

(** *** Bring-up *)

(** Set up the bus; the hardware bring-up runs on the first call only.
    The device structure is passed by pointer in the source: the updated
    structure is returned.  The structure belongs to the caller and is
    kept apart from [mem], which holds the transfer buffers. *)
Definition sspi_master_init (b : build) (K : sam_header)
    (device : sspi_device) (bits_req : Z) : Cmd sspi_device :=
  first <- get_init_comms ;;
  (if first then
     (if SAM4E b then
        call (ConfigurePin APIN_USART1_SCK) ;;;
        call (ConfigurePin APIN_USART1_MOSI) ;;;
        call (ConfigurePin APIN_USART1_MISO) ;;;
        call (pmc_enable_periph_clk SSPI_ID) ;;;
        reg_write US_IDR (u32 (Z.lnot 0)) ;;;
        reg_write US_CR
          (Z.lor (Z.lor (Z.lor (US_CR_RSTRX K) (US_CR_RSTTX K)) (US_CR_RXDIS K))
                 (US_CR_TXDIS K)) ;;;
        reg_write US_MR
          (Z.lor (Z.lor (Z.lor (US_MR_USART_MODE_SPI_MASTER K) (US_MR_USCLKS_MCK K))
                        (US_MR_CHRL_8_BIT K))
                 (US_MR_CHMODE_NORMAL K)) ;;;
        clk <- get_clock ;;
        reg_write US_BRGR (clk / 1000000) ;;;
        reg_write US_CR
          (Z.lor (Z.lor (Z.lor (Z.lor (US_CR_RSTRX K) (US_CR_RSTTX K)) (US_CR_RXDIS K))
                        (US_CR_TXDIS K))
                 (US_CR_RSTSTA K))
      else
        call (ConfigurePin APIN_SPI_SCK) ;;;
        call (ConfigurePin APIN_SPI_MOSI) ;;;
        call (ConfigurePin APIN_SPI_MISO) ;;;
        call (pmc_enable_periph_clk SPI_INTERFACE_ID) ;;;
        call spi_reset ;;;
        call spi_set_master_mode ;;;
        call spi_disable_mode_fault_detect ;;;
        call spi_disable_loopback ;;;
        call (spi_set_peripheral_chip_select_value DEFAULT_CHIP_ID) ;;;
        call spi_set_fixed_peripheral_select ;;;
        call spi_disable_peripheral_select_decode ;;;
        (if USE_SAM3X_DMAC b then
           call (pmc_enable_periph_clk ID_DMAC) ;;;
           call dmac_disable ;;;
           call dmac_set_priority_mode_fixed ;;;
           call dmac_enable
         else ret tt)) ;;;
     set_init_comms false
   else ret tt) ;;;
  ret (if SAM4E b then
         (* On USARTs only 8-bit transfers are supported. *)
         mkDevice (id device) (csPin device) (US_MR_CHRL_8_BIT K)
       else
         (* switch (bits): case 16 selects 16 bits, case 8 and default 8. *)
         if bits_req =? 16
         then mkDevice (id device) (csPin device) (SPI_CSR_BITS_16_BIT K)
         else mkDevice (id device) (csPin device) (SPI_CSR_BITS_8_BIT K)).

(** Modelled from the spec: [spi_calc_baudrate_div] is a function of the
    vendor SPI driver, outside this file.  The spec computes the divisor as
    [coreClockHz / baudRateHz] by integer division; nothing is said for a
    zero rate, which is left undefined. *)
Definition spi_calc_baudrate_div (baudrate mck : Z) : Cmd Z :=
  if baudrate =? 0 then undefined else ret (mck / baudrate).

(** Set up the bus for one device.  [spiMode] is a [uint8_t], [baud_rate]
    and the core clock are [uint32_t]: the quotient of two such values
    needs no wrap.  Division by a zero rate is undefined. *)
Definition sspi_master_setup_device (b : build) (K : sam_header)
    (device : sspi_device) (spiMode baud_rate : Z) : Cmd unit :=
  if SAM4E b then
    reg_write US_CR (Z.lor (US_CR_RSTRX K) (US_CR_RSTTX K)) ;;;
    let mr := us_mr_base K in
    let mr := if Z.land spiMode 2 =? 0 then mr else Z.lor mr (US_MR_CPOL K) in
    let mr := if Z.land spiMode 1 =? 0 then mr else Z.lor mr (US_MR_CPHA K) in
    reg_write US_MR mr ;;;
    clk <- get_clock ;;
    (if baud_rate =? 0 then undefined
     else reg_write US_BRGR (clk / baud_rate)) ;;;
    reg_write US_CR (Z.lor (US_CR_RXEN K) (US_CR_TXEN K))
  else
    call spi_reset ;;;
    call spi_set_master_mode ;;;
    call (spi_set_bits_per_transfer (id device) (bits device)) ;;;
    clk <- get_clock ;;
    d <- spi_calc_baudrate_div baud_rate clk ;;
    let baud_div := s16 d in
    call (spi_set_baudrate_div (id device) baud_div) ;;;
    call (spi_set_clock_polarity (id device) (Z.shiftr spiMode 1)) ;;;
    call (spi_set_clock_phase (id device) (Z.lxor (Z.land spiMode 1) 1)) ;;;
    call spi_enable.

(** *** Chip select *)

(** Select the device.  The chip-select value handed to the vendor layer is
    the [int] expression [~(1 << device->id)]. *)
Definition sspi_select_device (b : build) (device : sspi_device) : Cmd unit :=
  (if SAM3XA b then
     if id device <? MAX_NUM_WITHOUT_DECODER then
       call (spi_set_peripheral_chip_select_value
               (Z.lnot (Z.shiftl 1 (id device))))
     else ret tt
   else ret tt) ;;;
  (* Enable the CS line *)
  call (digitalWrite (csPin device) LOW).

(** Deselect the device.  The outcome of the wait is not looked at. *)
Definition sspi_deselect_device (b : build) (fuel : nat)
    (device : sspi_device) : Cmd unit :=
  waitForTxEmpty fuel ;;;
  (if SAM3XA b then
     (* Last transfer, so de-assert the current NPCS if CSAAT is set. *)
     call spi_set_lastxfer ;;;
     (* Assert all lines; no peripheral is selected. *)
     call (spi_set_peripheral_chip_select_value NONE_CHIP_SELECT_ID)
   else ret tt) ;;;
  (* Disable the CS line *)
  call (digitalWrite (csPin device) HIGH).

(** *** Transfer *)

Definition tdr (b : build) : reg := if SAM4E b then US_THR else SPI_TDR.
Definition rdr (b : build) : reg := if SAM4E b then US_RHR else SPI_RDR.

(** One pass through the body of the transfer loop, at index [i].
    [Some s] is [return s]; [None] falls through to the next pass.  A null
    buffer pointer is [None].  [i] is a [uint32_t] and [len] a [size_t],
    32 bits wide on these parts. *)
Definition transceive_step (b : build) (K : sam_header) (fuel : nat)
    (tx_data rx_data : option Z) (len i : nat) : Cmd (option spi_status_t) :=
  t <- waitForTxReady fuel ;;
  if t then ret (Some SPI_ERROR_TIMEOUT)
  else
    (* Write to transmit register *)
    d <- match tx_data with
         | None => ret 0xFF
         | Some p => load8 (p + Z.of_nat i)
         end ;;
    let dOut := if u32 (Z.of_nat i + 1) =? Z.of_nat len
                then Z.lor d (SPI_TDR_LASTXFER K) else d in
    reg_write (tdr b) dOut ;;;
    (* Wait for receive register *)
    t <- waitForRxReady fuel ;;
    if t then ret (Some SPI_ERROR_TIMEOUT)
    else
      (* Get data from receive register *)
      v <- reg_read (rdr b) ;;
      let dIn := u8 v in
      match rx_data with
      | None => ret tt
      | Some q => store8 (q + Z.of_nat i) dIn
      end ;;;
      ret None.

(** [for (uint32_t i = 0; i < len; ++i)], with [n] passes left. *)
Fixpoint transceive_loop (b : build) (K : sam_header) (fuel : nat)
    (tx_data rx_data : option Z) (len n i : nat) : Cmd spi_status_t :=
  match n with
  | O => ret SPI_OK
  | S n' =>
      r <- transceive_step b K fuel tx_data rx_data len i ;;
      match r with
      | Some s => ret s
      | None => transceive_loop b K fuel tx_data rx_data len n' (S i)
      end
  end.

(** Send and receive a sequence of bytes. *)
Definition sspi_transceive_packet (b : build) (K : sam_header) (fuel : nat)
    (tx_data rx_data : option Z) (len : nat) : Cmd spi_status_t :=
  transceive_loop b K fuel tx_data rx_data len len 0.

End Driver.

(** Which entry points a build contains: the 16-bit transfer is compiled
    for [SAM3XA] only, the DMA starters only with [USE_SAM3X_DMAC]. *)
Inductive entry_point : Type :=
| Fn_sspi_acquire | Fn_sspi_release | Fn_sspi_master_init
| Fn_sspi_master_setup_device | Fn_sspi_select_device
| Fn_sspi_deselect_device | Fn_sspi_transceive_packet
| Fn_sspi_transceive_packet16
| Fn_sspi_start_transmit_dma | Fn_sspi_start_receive_dma.

Definition compiled (b : build) (f : entry_point) : bool :=
  match f with
  | Fn_sspi_transceive_packet16 => SAM3XA b
  | Fn_sspi_start_transmit_dma | Fn_sspi_start_receive_dma => USE_SAM3X_DMAC b
  | _ => true
  end.

(** ** Mock peripherals *)

(** A bus on which nothing ever answers: no flag is ever raised. *)
Inductive dead_bus : Type := DeadBus.

#[export] Instance dead_bus_hw : SpiHw dead_bus := {|
  hw_status := fun _ d => (false, d);
  hw_write := fun _ _ d => d;
  hw_read := fun _ d => (0, d);
  hw_call := fun _ d => d
|}.

(** A loopback: every flag is raised at once, and a read of the receive
    register returns the low byte of the last word written to the transmit
    register. *)
Record loopback : Type := mkLoopback { shifter : Z }.

#[export] Instance loopback_hw : SpiHw loopback := {|
  hw_status := fun _ d => (true, d);
  hw_write := fun r v d =>
    match r with
    | US_THR | SPI_TDR => mkLoopback (u8 v)
    | _ => d
    end;
  hw_read := fun r d =>
    match r with
    | US_RHR | SPI_RDR => (shifter d, d)
    | _ => (0, d)
    end;
  hw_call := fun _ d => d
|}.

(** A slave that is always ready and answers every transfer with zero. *)
Inductive idle_slave : Type := IdleSlave.

#[export] Instance idle_slave_hw : SpiHw idle_slave := {|
  hw_status := fun _ d => (true, d);
  hw_write := fun _ _ d => d;
  hw_read := fun _ d => (0, d);
  hw_call := fun _ d => d
|}.

(** A quiescent initial state around a peripheral [d]: bus free, bring-up
    pending, interrupts on, 120 MHz core clock, RAM holding the low byte of
    each address. *)
Definition boot {D : Type} (d : D) : world D :=
  mkWorld false true true 120000000 (fun a => u8 a) d [].

(** ** Reading a trace *)

(** The iteration budget of a wait, as a count. *)
Definition budget : nat := Z.to_nat SPI_TIMEOUT.

(** A poll event carries an answer the peripheral can give. *)
Definition genuine {D : Type} {HW : SpiHw D} (e : event) : Prop :=
  match e with
  | EvPoll f r => exists d : D, fst (hw_status f d) = r
  | _ => True
  end.

(** The events of one wait on flag [f] with a budget of [n] polls: either
    fewer than [n] refusals and then the flag, or [n] refusals and the wait
    gives up. *)
Inductive wait_trace (f : status_flag) (n : nat) : bool -> list event -> Prop :=
| wait_ready (k : nat) :
    (k < n)%nat ->
    wait_trace f n false (repeat (EvPoll f false) k ++ [EvPoll f true])
| wait_expired :
    wait_trace f n true (repeat (EvPoll f false) n).

(** The word of pass [i], as the source computes it. *)
Definition outgoing_word (K : sam_header) (tx_data : option Z) (len i : nat)
    (m : Z -> Z) : Z :=
  let d := match tx_data with
           | None => 0xFF
           | Some p => u8 (m (p + Z.of_nat i))
           end in
  if u32 (Z.of_nat i + 1) =? Z.of_nat len
  then Z.lor d (SPI_TDR_LASTXFER K) else d.

(** RAM after pass [i] has received the register value [v]. *)
Definition incoming (rx_data : option Z) (i : nat) (v : Z) (m : Z -> Z) : Z -> Z :=
  match rx_data with
  | None => m
  | Some q => mem_store m (q + Z.of_nat i) (u8 v)
  end.

(** The events of one pass that sends [word]: a pass that completes reads
    the receive register ([Some v]); a pass that times out ends with the
    wait that gave up ([None]). *)
Inductive step_trace (b : build) (word : Z) : option Z -> list event -> Prop :=
| step_done (t1 t2 : list event) (v : Z) :
    wait_trace TxReady budget false t1 ->
    wait_trace RxReady budget false t2 ->
    step_trace b word (Some v)
      (t1 ++ EvWrite (tdr b) word :: t2 ++ [EvRead (rdr b) v])
| step_tx_expired (t1 : list event) :
    wait_trace TxReady budget true t1 ->
    step_trace b word None t1
| step_rx_expired (t1 t2 : list event) :
    wait_trace TxReady budget false t1 ->
    wait_trace RxReady budget true t2 ->
    step_trace b word None (t1 ++ EvWrite (tdr b) word :: t2).

(** A transfer as the specification words it: from index [i] with [n]
    passes to go and RAM [m], the status returned, the events produced and
    the RAM left behind.  Each pass completes and the transfer goes on, or
    times out and the transfer ends there. *)
Inductive run_trace (b : build) (K : sam_header) (tx_data rx_data : option Z)
    (len : nat) : nat -> nat -> (Z -> Z) -> spi_status_t -> list event ->
                  (Z -> Z) -> Prop :=
| run_end (i : nat) (m : Z -> Z) :
    run_trace b K tx_data rx_data len i 0 m SPI_OK [] m
| run_step (i n : nat) (m m' : Z -> Z) (v : Z) (t ts : list event)
           (s : spi_status_t) :
    step_trace b (outgoing_word K tx_data len i m) (Some v) t ->
    run_trace b K tx_data rx_data len (S i) n (incoming rx_data i v m) s ts m' ->
    run_trace b K tx_data rx_data len i (S n) m s (t ++ ts) m'
| run_abort (i n : nat) (m : Z -> Z) (t : list event) :
    step_trace b (outgoing_word K tx_data len i m) None t ->
    run_trace b K tx_data rx_data len i (S n) m SPI_ERROR_TIMEOUT t m.

Definition is_poll (e : event) : bool :=
  match e with EvPoll _ _ => true | _ => false end.

Definition is_read (e : event) : bool :=
  match e with EvRead _ _ => true | _ => false end.

(** A trace that holds status polls only. *)
Definition only_polls (t : list event) : Prop :=
  Forall (fun e => is_poll e = true) t.

(** Number of status polls in a trace. *)
Definition poll_count (t : list event) : nat := length (filter is_poll t).

(** Number of passes that got as far as reading the received word. *)
Definition steps_completed (t : list event) : nat := length (filter is_read t).

(** The words written to the transmit data register, in order. *)
Fixpoint data_writes (b : build) (t : list event) : list Z :=
  match t with
  | [] => []
  | EvWrite r v :: t' =>
      match r, SAM4E b with
      | US_THR, true | SPI_TDR, false => v :: data_writes b t'
      | _, _ => data_writes b t'
      end
  | _ :: t' => data_writes b t'
  end.

(** The last setting of some kind that a trace holds. *)
Definition last_of {A : Type} (pick : event -> option A) (t : list event)
    : option A :=
  fold_left (fun acc e => match pick e with Some v => Some v | None => acc end)
            t None.

Definition field_bit (mask v : Z) : Z := if Z.land v mask =? 0 then 0 else 1.


(** Clock polarity handed to the hardware: the CPOL field of the USART mode
    word, or the argument of [spi_set_clock_polarity]. *)
Definition clock_polarity_of (K : sam_header) (e : event) : option Z :=
  match e with
  | EvWrite US_MR v => Some (field_bit (US_MR_CPOL K) v)
  | EvCall (spi_set_clock_polarity _ p) => Some p
  | _ => None
  end.

(** Clock phase handed to the hardware: the CPHA field of the USART mode
    word, or the argument of [spi_set_clock_phase]. *)
Definition clock_phase_of (K : sam_header) (e : event) : option Z :=
  match e with
  | EvWrite US_MR v => Some (field_bit (US_MR_CPHA K) v)
  | EvCall (spi_set_clock_phase _ p) => Some p
  | _ => None
  end.

(** Two states that differ at most in the peripheral and the trace. *)
Definition same_software {D : Type} (w w' : world D) : Prop :=
  sspiLocked w' = sspiLocked w /\ init_comms w' = init_comms w /\
  irq_enabled w' = irq_enabled w /\ SystemCoreClock w' = SystemCoreClock w /\
  mem w' = mem w.

(** Two states that differ at most in RAM, the peripheral and the trace. *)
Definition same_statics {D : Type} (w w' : world D) : Prop :=
  sspiLocked w' = sspiLocked w /\ init_comms w' = init_comms w /\
  irq_enabled w' = irq_enabled w /\ SystemCoreClock w' = SystemCoreClock w.

(** The word of pass [i] as the specification words it: the byte at index
    [i] of the outgoing buffer, or the fill value, with the last-transfer
    marker on the final pass only. *)
Definition tx_word (K : sam_header) (tx_data : option Z) (len : nat)
    (m : Z -> Z) (i : nat) : Z :=
  let d := match tx_data with
           | None => 0xFF
           | Some p => u8 (m (p + Z.of_nat i))
           end in
  if (S i =? len)%nat then Z.lor d (SPI_TDR_LASTXFER K) else d.

(** No pass stores a received byte where a later pass fetches its outgoing
    byte.  Separate buffers and a transfer in place both qualify. *)
Definition hazard_free (tx_data rx_data : option Z) (len : nat) : Prop :=
  forall p q j k,
    tx_data = Some p -> rx_data = Some q -> (j < k < len)%nat ->
    q + Z.of_nat j <> p + Z.of_nat k.

(** The two buffers have no byte in common. *)
Definition disjoint_buffers (tx_data rx_data : option Z) (len : nat) : Prop :=
  forall p q j k,
    tx_data = Some p -> rx_data = Some q -> (j < len)%nat -> (k < len)%nat ->
    q + Z.of_nat j <> p + Z.of_nat k.

(** The two builds the boards use, for the examples. *)
Definition native_build : build := mkBuild ChipSAM3XA false.
Definition usart_build : build := mkBuild ChipSAM4E false.

(** ** The 16-bit transfer *)

Definition u16 (x : Z) : Z := x mod 2 ^ 16.

(** A [uint16_t] in RAM: two bytes, low byte first, as these little-endian
    parts store it. *)
Definition mem_load16 (m : Z -> Z) (a : Z) : Z :=
  u8 (m a) + 256 * u8 (m (a + 1)).

Definition mem_store16 (m : Z -> Z) (a v : Z) : Z -> Z :=
  mem_store (mem_store m a (u8 v)) (a + 1) (u8 (v / 256)).

Section Driver16.

Context {D : Type} {HW : SpiHw D}.

Local Abbreviation Cmd := (M D).

Definition load16 (a : Z) : Cmd Z := fun w => Ret (mem_load16 (mem w) a) w.

Definition store16 (a v : Z) : Cmd unit := fun w =>
  Ret tt (mkWorld (sspiLocked w) (init_comms w) (irq_enabled w)
                  (SystemCoreClock w) (mem_store16 (mem w) a v) (dev w) (trace w)).

(** One pass through the body of the 16-bit transfer loop, at index [i].
    The buffers are arrays of [uint16_t]: element [i] sits at byte offset
    [2 * i].  The function exists in [SAM3XA] builds only and names the SPI
    registers directly. *)
Definition transceive_step16 (K : sam_header) (fuel : nat)
    (tx_data rx_data : option Z) (len i : nat) : Cmd (option spi_status_t) :=
  (* Wait for transmit register empty *)
  t <- waitForTxReady fuel ;;
  if t then ret (Some SPI_ERROR_TIMEOUT)
  else
    (* Write to transmit register *)
    d <- match tx_data with
         | None => ret 0xFF
         | Some p => load16 (p + 2 * Z.of_nat i)
         end ;;
    let dOut := if u32 (Z.of_nat i + 1) =? Z.of_nat len
                then Z.lor d (SPI_TDR_LASTXFER K) else d in
    reg_write SPI_TDR dOut ;;;
    (* Wait for receive register *)
    t <- waitForRxReady fuel ;;
    if t then ret (Some SPI_ERROR_TIMEOUT)
    else
      (* Get data from receive register *)
      v <- reg_read SPI_RDR ;;
      let dIn := u16 v in
      match rx_data with
      | None => ret tt
      | Some q => store16 (q + 2 * Z.of_nat i) dIn
      end ;;;
      ret None.

Fixpoint transceive_loop16 (K : sam_header) (fuel : nat)
    (tx_data rx_data : option Z) (len n i : nat) : Cmd spi_status_t :=
  match n with
  | O => ret SPI_OK
  | S n' =>
      r <- transceive_step16 K fuel tx_data rx_data len i ;;
      match r with
      | Some s => ret s
      | None => transceive_loop16 K fuel tx_data rx_data len n' (S i)
      end
  end.

(** Send and receive a sequence of 16-bit words. *)
Definition sspi_transceive_packet16 (K : sam_header) (fuel : nat)
    (tx_data rx_data : option Z) (len : nat) : Cmd spi_status_t :=
  transceive_loop16 K fuel tx_data rx_data len len 0.

End Driver16.

(** The word of pass [i] of the 16-bit transfer, as the source computes
    it. *)
Definition outgoing_word16 (K : sam_header) (tx_data : option Z) (len i : nat)
    (m : Z -> Z) : Z :=
  let d := match tx_data with
           | None => 0xFF
           | Some p => mem_load16 m (p + 2 * Z.of_nat i)
           end in
  if u32 (Z.of_nat i + 1) =? Z.of_nat len
  then Z.lor d (SPI_TDR_LASTXFER K) else d.

Definition incoming16 (rx_data : option Z) (i : nat) (v : Z) (m : Z -> Z)
    : Z -> Z :=
  match rx_data with
  | None => m
  | Some q => mem_store16 m (q + 2 * Z.of_nat i) (u16 v)
  end.

(** The 16-bit transfer, pass by pass, in the manner of [run_trace]. *)
Inductive run_trace16 (K : sam_header) (tx_data rx_data : option Z)
    (len : nat) : nat -> nat -> (Z -> Z) -> spi_status_t -> list event ->
                  (Z -> Z) -> Prop :=
| run16_end (i : nat) (m : Z -> Z) :
    run_trace16 K tx_data rx_data len i 0 m SPI_OK [] m
| run16_step (i n : nat) (m m' : Z -> Z) (v : Z) (t ts : list event)
             (s : spi_status_t) :
    step_trace native_build (outgoing_word16 K tx_data len i m) (Some v) t ->
    run_trace16 K tx_data rx_data len (S i) n (incoming16 rx_data i v m) s ts m' ->
    run_trace16 K tx_data rx_data len i (S n) m s (t ++ ts) m'
| run16_abort (i n : nat) (m : Z -> Z) (t : list event) :
    step_trace native_build (outgoing_word16 K tx_data len i m) None t ->
    run_trace16 K tx_data rx_data len i (S n) m SPI_ERROR_TIMEOUT t m.

(** ** More ways to read a trace *)

(** The values read from the receive data register, in order. *)
Fixpoint data_reads (b : build) (t : list event) : list Z :=
  match t with
  | [] => []
  | EvRead r v :: t' =>
      match r, SAM4E b with
      | US_RHR, true | SPI_RDR, false => v :: data_reads b t'
      | _, _ => data_reads b t'
      end
  | _ :: t' => data_reads b t'
  end.

(** Level a chip-select pin was driven to. *)
Definition pin_level_of (pin : Z) (e : event) : option pin_level :=
  match e with
  | EvCall (digitalWrite p l) => if p =? pin then Some l else None
  | _ => None
  end.

(** Peripheral chip-select value handed to the vendor layer. *)
Definition chip_select_value_of (e : event) : option Z :=
  match e with
  | EvCall (spi_set_peripheral_chip_select_value v) => Some v
  | _ => None
  end.

(** What the peripheral answers to at most [n] polls of flag [f] from
    state [d]: the number of refusals before the flag is first seen
    raised, if it is within those polls, and the state the peripheral is
    left in. *)
Fixpoint poll_until {D : Type} {HW : SpiHw D} (f : status_flag) (n : nat)
    (d : D) : option nat * D :=
  match n with
  | O => (None, d)
  | S n' =>
      let (r, d') := hw_status f d in
      if r then (Some O, d')
      else let (k, d'') := poll_until f n' d' in (option_map S k, d'')
  end.

(** The events of a wait that the peripheral answers as [k] tells. *)
Definition wait_events (f : status_flag) (n : nat) (k : option nat)
    : list event :=
  match k with
  | Some j => repeat (EvPoll f false) j ++ [EvPoll f true]
  | None => repeat (EvPoll f false) n
  end.

Definition gave_up (k : option nat) : bool :=
  match k with Some _ => false | None => true end.

(** The last-transfer marker lies above the low byte of the data word. *)
Definition marker_above_byte (K : sam_header) : bool :=
  Z.land (SPI_TDR_LASTXFER K) 0xFF =? 0.

(** An event a transfer may produce: a poll of transmit-ready or of
    receive-ready, a write of the transmit data register, a read of the
    receive data register. *)
Definition transfer_event (b : build) (e : event) : Prop :=
  match e with
  | EvPoll f _ => f = TxReady \/ f = RxReady
  | EvWrite r _ => r = tdr b
  | EvRead r _ => r = rdr b
  | EvCall _ => False
  end.

(** Runs a straight-line sequence of register writes and driver calls,
    reducing the state it builds as it goes. *)
Ltac symbolic_run :=
  cbv [bind ret undefined call reg_write record get_clock set_init_comms
       sspiLocked init_comms irq_enabled SystemCoreClock mem dev trace].

(** * Properties *)

Section Properties.

Context {D : Type} {HW : SpiHw D}.

Implicit Types (w : world D) (t : list event) (f : status_flag).

(** ** The state relations *)

Lemma same_software_refl w : same_software w w.
Proof. repeat split. Qed.

Lemma same_software_trans w1 w2 w3 :
  same_software w1 w2 -> same_software w2 w3 -> same_software w1 w3.
Proof.
  unfold same_software.
  intros (H1 & H2 & H3 & H4 & H5) (G1 & G2 & G3 & G4 & G5).
  repeat split; congruence.
Qed.

Lemma same_software_statics w1 w2 : same_software w1 w2 -> same_statics w1 w2.
Proof. unfold same_software, same_statics. tauto. Qed.

Lemma same_statics_trans w1 w2 w3 :
  same_statics w1 w2 -> same_statics w2 w3 -> same_statics w1 w3.
Proof.
  unfold same_statics.
  intros (H1 & H2 & H3 & H4) (G1 & G2 & G3 & G4).
  repeat split; congruence.
Qed.

(** ** Primitive accesses *)

Lemma poll_spec f w :
  exists w',
    poll f w = Ret (fst (hw_status f (dev w))) w' /\
    trace w' = trace w ++ [EvPoll f (fst (hw_status f (dev w)))] /\
    same_software w w'.
Proof.
  unfold poll. destruct (hw_status f (dev w)) as [r d].
  eexists. split; [reflexivity|]. split; [reflexivity|]. repeat split.
Qed.

Lemma reg_write_spec r v w :
  exists w',
    reg_write r v w = Ret tt w' /\
    trace w' = trace w ++ [EvWrite r v] /\
    same_software w w'.
Proof.
  eexists. split; [reflexivity|]. split; [reflexivity|]. repeat split.
Qed.

Lemma reg_read_spec r w :
  exists v w',
    reg_read r w = Ret v w' /\
    trace w' = trace w ++ [EvRead r v] /\
    same_software w w'.
Proof.
  unfold reg_read. destruct (hw_read r (dev w)) as [v d].
  exists v. eexists. split; [reflexivity|]. split; [reflexivity|]. repeat split.
Qed.

Lemma call_spec c w :
  exists w',
    call c w = Ret tt w' /\
    trace w' = trace w ++ [EvCall c] /\
    same_software w w'.
Proof.
  eexists. split; [reflexivity|]. split; [reflexivity|]. repeat split.
Qed.

Lemma u32_small x : 0 <= x < 2 ^ 32 -> u32 x = x.
Proof. intros H. unfold u32. apply Z.mod_small. exact H. Qed.

(** ** Wait loops *)

Lemma wait_predec_unfold f fuel timeout w :
  wait_predec f (S fuel) timeout w =
  match poll f w with
  | Ret r w1 =>
      if r then Ret false w1
      else if u32 (timeout - 1) =? 0 then Ret true w1
           else wait_predec f fuel (u32 (timeout - 1)) w1
  | OutOfFuel => OutOfFuel
  | Undefined => Undefined
  end.
Proof.
  cbn [wait_predec]. unfold bind.
  destruct (poll f w) as [r w1| |]; try reflexivity.
  destruct r; try reflexivity.
  destruct (u32 (timeout - 1) =? 0); reflexivity.
Qed.

Lemma wait_postdec_unfold f fuel timeout w :
  wait_postdec f (S fuel) timeout w =
  match poll f w with
  | Ret r w1 =>
      if r then Ret false w1
      else if timeout =? 0 then Ret true w1
           else wait_postdec f fuel (u32 (timeout - 1)) w1
  | OutOfFuel => OutOfFuel
  | Undefined => Undefined
  end.
Proof.
  cbn [wait_postdec]. unfold bind.
  destruct (poll f w) as [r w1| |]; try reflexivity.
  destruct r; try reflexivity.
  destruct (timeout =? 0); reflexivity.
Qed.

Lemma wait_trace_refused f n r t :
  wait_trace f n r t -> wait_trace f (S n) r (EvPoll f false :: t).
Proof.
  intros H. destruct H as [k Hk|].
  - apply (wait_ready f (S n) (S k)). lia.
  - apply (wait_expired f (S n)).
Qed.

Lemma genuine_poll f w : genuine (EvPoll f (fst (hw_status f (dev w)))).
Proof. exists (dev w). reflexivity. Qed.

(** A pre-decrement wait started at [n + 1] polls at most [n + 1] times. *)
Lemma wait_predec_spec f n :
  forall fuel w,
    (S n <= fuel)%nat -> Z.of_nat (S n) < 2 ^ 32 ->
    exists r w' t,
      wait_predec f fuel (Z.of_nat (S n)) w = Ret r w' /\
      trace w' = trace w ++ t /\
      wait_trace f (S n) r t /\
      Forall genuine t /\
      same_software w w'.
Proof.
  induction n as [|n IH]; intros fuel w Hfuel Hrange;
    (destruct fuel as [|fuel]; [lia|]);
    rewrite wait_predec_unfold;
    destruct (poll_spec f w) as (w1 & Hp & Ht & Hs);
    pose proof (genuine_poll f w) as Hg;
    rewrite Hp; destruct (fst (hw_status f (dev w))).
  - exists false, w1, [EvPoll f true]. repeat split; try apply Hs; auto.
    apply (wait_ready f 1 0). lia.
  - exists true, w1, [EvPoll f false]. repeat split; try apply Hs; auto.
    apply (wait_expired f 1).
  - exists false, w1, [EvPoll f true]. repeat split; try apply Hs; auto.
    apply (wait_ready f (S (S n)) 0). lia.
  - replace (u32 (Z.of_nat (S (S n)) - 1)) with (Z.of_nat (S n))
      by (rewrite u32_small; lia).
    destruct (Z.eqb_spec (Z.of_nat (S n)) 0) as [E|_]; [lia|].
    destruct (IH fuel w1) as (r & w' & t & Hr & Ht' & Hw & Hgs & Hs'); [lia|lia|].
    exists r, w', (EvPoll f false :: t).
    split; [exact Hr|]. split.
    + rewrite Ht', Ht, <- app_assoc. reflexivity.
    + split; [apply wait_trace_refused; exact Hw|].
      split; [constructor; assumption|].
      eapply same_software_trans; eassumption.
Qed.

(** A post-decrement wait started at [n] polls at most [n + 1] times. *)
Lemma wait_postdec_spec f n :
  forall fuel w,
    (S n <= fuel)%nat -> Z.of_nat n < 2 ^ 32 ->
    exists r w' t,
      wait_postdec f fuel (Z.of_nat n) w = Ret r w' /\
      trace w' = trace w ++ t /\
      wait_trace f (S n) r t /\
      Forall genuine t /\
      same_software w w'.
Proof.
  induction n as [|n IH]; intros fuel w Hfuel Hrange;
    (destruct fuel as [|fuel]; [lia|]);
    rewrite wait_postdec_unfold;
    destruct (poll_spec f w) as (w1 & Hp & Ht & Hs);
    pose proof (genuine_poll f w) as Hg;
    rewrite Hp; destruct (fst (hw_status f (dev w))).
  - exists false, w1, [EvPoll f true]. repeat split; try apply Hs; auto.
    apply (wait_ready f 1 0). lia.
  - exists true, w1, [EvPoll f false]. repeat split; try apply Hs; auto.
    apply (wait_expired f 1).
  - exists false, w1, [EvPoll f true]. repeat split; try apply Hs; auto.
    apply (wait_ready f (S (S n)) 0). lia.
  - destruct (Z.eqb_spec (Z.of_nat (S n)) 0) as [E|_]; [lia|].
    replace (u32 (Z.of_nat (S n) - 1)) with (Z.of_nat n)
      by (rewrite u32_small; lia).
    destruct (IH fuel w1) as (r & w' & t & Hr & Ht' & Hw & Hgs & Hs'); [lia|lia|].
    exists r, w', (EvPoll f false :: t).
    split; [exact Hr|]. split.
    + rewrite Ht', Ht, <- app_assoc. reflexivity.
    + split; [apply wait_trace_refused; exact Hw|].
      split; [constructor; assumption|].
      eapply same_software_trans; eassumption.
Qed.

Lemma budget_Z : Z.of_nat budget = SPI_TIMEOUT.
Proof. unfold budget. apply Z2Nat.id. unfold SPI_TIMEOUT. lia. Qed.

Lemma budget_succ : exists n, budget = S n /\ SPI_TIMEOUT = Z.of_nat (S n).
Proof.
  exists (Nat.pred budget). pose proof budget_Z as H.
  unfold SPI_TIMEOUT in *. lia.
Qed.

Lemma SPI_TIMEOUT_range : 0 < SPI_TIMEOUT < 2 ^ 32.
Proof. unfold SPI_TIMEOUT. lia. Qed.

Lemma waitForTxReady_spec fuel w :
  (budget <= fuel)%nat ->
  exists r w' t,
    waitForTxReady fuel w = Ret r w' /\
    trace w' = trace w ++ t /\
    wait_trace TxReady budget r t /\
    Forall genuine t /\
    same_software w w'.
Proof.
  intros Hfuel. unfold waitForTxReady.
  destruct budget_succ as (n & Hn & HZ). pose proof SPI_TIMEOUT_range as Hr.
  rewrite Hn in *. rewrite HZ in *.
  apply wait_predec_spec; lia.
Qed.

Lemma waitForRxReady_spec fuel w :
  (budget <= fuel)%nat ->
  exists r w' t,
    waitForRxReady fuel w = Ret r w' /\
    trace w' = trace w ++ t /\
    wait_trace RxReady budget r t /\
    Forall genuine t /\
    same_software w w'.
Proof.
  intros Hfuel. unfold waitForRxReady.
  destruct budget_succ as (n & Hn & HZ). pose proof SPI_TIMEOUT_range as Hr.
  rewrite Hn in *. rewrite HZ in *.
  apply wait_predec_spec; lia.
Qed.

Lemma waitForTxEmpty_spec fuel w :
  (S budget <= fuel)%nat ->
  exists r w' t,
    waitForTxEmpty fuel w = Ret r w' /\
    trace w' = trace w ++ t /\
    wait_trace TxEmpty (S budget) r t /\
    Forall genuine t /\
    same_software w w'.
Proof.
  intros Hfuel. unfold waitForTxEmpty.
  pose proof budget_Z as HZ. pose proof SPI_TIMEOUT_range as Hr.
  rewrite <- HZ in *.
  apply wait_postdec_spec; lia.
Qed.

(** ** The transfer loop refines its specification *)

Lemma bind_Ret {A B : Type} (c : M D A) (k : A -> M D B) w (a : A) w1 :
  c w = Ret a w1 -> bind c k w = k a w1.
Proof. intros H. unfold bind. rewrite H. reflexivity. Qed.

Lemma transceive_step_spec b K fuel tx_data rx_data len i w :
  (budget <= fuel)%nat ->
  exists r w' t,
    transceive_step b K fuel tx_data rx_data len i w = Ret r w' /\
    trace w' = trace w ++ t /\
    Forall genuine t /\
    same_statics w w' /\
    ((exists v, r = None /\
        step_trace b (outgoing_word K tx_data len i (mem w)) (Some v) t /\
        mem w' = incoming rx_data i v (mem w)) \/
     (r = Some SPI_ERROR_TIMEOUT /\
        step_trace b (outgoing_word K tx_data len i (mem w)) None t /\
        mem w' = mem w)).
Proof.
  intros Hfuel. unfold transceive_step.
  destruct (waitForTxReady_spec fuel w Hfuel)
    as (r1 & w1 & t1 & H1 & Ht1 & Hw1 & Hg1 & Hs1).
  rewrite (bind_Ret _ _ _ _ _ H1); cbv beta.
  destruct r1.
  { exists (Some SPI_ERROR_TIMEOUT), w1, t1.
    split; [reflexivity|]. split; [exact Ht1|]. split; [exact Hg1|].
    split; [apply same_software_statics; exact Hs1|].
    right. split; [reflexivity|]. split; [|apply Hs1].
    apply step_tx_expired. exact Hw1. }
  assert (Hm1 : mem w1 = mem w) by apply Hs1.
  assert (Hd : (match tx_data with
                | None => ret 255
                | Some p => load8 (p + Z.of_nat i)
                end) w1
               = Ret (match tx_data with
                      | None => 255
                      | Some p => u8 (mem w (p + Z.of_nat i))
                      end) w1).
  { destruct tx_data; [unfold load8; rewrite Hm1|]; reflexivity. }
  rewrite (bind_Ret _ _ _ _ _ Hd); cbv beta zeta.
  fold (outgoing_word K tx_data len i (mem w)).
  set (word := outgoing_word K tx_data len i (mem w)).
  destruct (reg_write_spec (tdr b) word w1) as (w2 & H2 & Ht2 & Hs2).
  rewrite (bind_Ret _ _ _ _ _ H2); cbv beta.
  destruct (waitForRxReady_spec fuel w2 Hfuel)
    as (r3 & w3 & t3 & H3 & Ht3 & Hw3 & Hg3 & Hs3).
  rewrite (bind_Ret _ _ _ _ _ H3); cbv beta.
  assert (Hs13 : same_software w w3).
  { eapply same_software_trans; [exact Hs1|].
    eapply same_software_trans; [exact Hs2|exact Hs3]. }
  destruct r3.
  { exists (Some SPI_ERROR_TIMEOUT), w3, (t1 ++ EvWrite (tdr b) word :: t3).
    split; [reflexivity|]. split.
    { rewrite Ht3, Ht2, Ht1, <- !app_assoc. reflexivity. }
    split.
    { apply Forall_app. split; [exact Hg1|]. constructor; [exact I|exact Hg3]. }
    split; [apply same_software_statics; exact Hs13|].
    right. split; [reflexivity|]. split; [|apply Hs13].
    apply step_rx_expired; assumption. }
  destruct (reg_read_spec (rdr b) w3) as (v & w4 & H4 & Ht4 & Hs4).
  rewrite (bind_Ret _ _ _ _ _ H4); cbv beta zeta.
  assert (Hs14 : same_software w w4).
  { eapply same_software_trans; [exact Hs13|exact Hs4]. }
  exists None.
  exists (match rx_data with
          | None => w4
          | Some q =>
              mkWorld (sspiLocked w4) (init_comms w4) (irq_enabled w4)
                      (SystemCoreClock w4)
                      (mem_store (mem w4) (q + Z.of_nat i) (u8 v))
                      (dev w4) (trace w4)
          end).
  exists (t1 ++ EvWrite (tdr b) word :: t3 ++ [EvRead (rdr b) v]).
  split.
  { destruct rx_data; reflexivity. }
  split.
  { replace (trace match rx_data with
                   | None => w4
                   | Some q => _
                   end) with (trace w4) by (destruct rx_data; reflexivity).
    rewrite Ht4, Ht3, Ht2, Ht1, <- !app_assoc. reflexivity. }
  split.
  { apply Forall_app. split; [exact Hg1|].
    constructor; [exact I|].
    apply Forall_app. split; [exact Hg3|]. constructor; [exact I|constructor]. }
  split.
  { destruct Hs14 as (G1 & G2 & G3 & G4 & G5).
    destruct rx_data; repeat split; assumption. }
  left. exists v. split; [reflexivity|]. split.
  { apply step_done; assumption. }
  destruct Hs14 as (G1 & G2 & G3 & G4 & G5).
  unfold incoming. destruct rx_data; cbn [mem]; rewrite G5; reflexivity.
Qed.

Lemma transceive_loop_spec b K fuel tx_data rx_data len :
  (budget <= fuel)%nat ->
  forall n i w,
  exists s w' t,
    transceive_loop b K fuel tx_data rx_data len n i w = Ret s w' /\
    trace w' = trace w ++ t /\
    Forall genuine t /\
    same_statics w w' /\
    run_trace b K tx_data rx_data len i n (mem w) s t (mem w').
Proof.
  intros Hfuel. induction n as [|n IH]; intros i w.
  - exists SPI_OK, w, []. split; [reflexivity|].
    split; [rewrite app_nil_r; reflexivity|]. split; [constructor|].
    split; [repeat split|]. constructor.
  - cbn [transceive_loop].
    destruct (transceive_step_spec b K fuel tx_data rx_data len i w Hfuel)
      as (r & w1 & t1 & H1 & Ht1 & Hg1 & Hs1 & Hcase).
    rewrite (bind_Ret _ _ _ _ _ H1); cbv beta.
    destruct Hcase as [(v & -> & Hstep & Hmem)|(-> & Hstep & Hmem)].
    + destruct (IH (S i) w1) as (s & w' & ts & H2 & Ht2 & Hg2 & Hs2 & Hrun).
      exists s, w', (t1 ++ ts).
      split; [exact H2|]. split; [rewrite Ht2, Ht1, app_assoc; reflexivity|].
      split; [apply Forall_app; split; assumption|].
      split; [eapply same_statics_trans; eassumption|].
      rewrite Hmem in Hrun. eapply run_step; eassumption.
    + exists SPI_ERROR_TIMEOUT, w1, t1.
      split; [reflexivity|]. split; [exact Ht1|]. split; [exact Hg1|].
      split; [exact Hs1|].
      rewrite Hmem. apply run_abort. exact Hstep.
Qed.

(** ** What a trace of the specified shape contains *)

Lemma only_polls_repeat f r k : only_polls (repeat (EvPoll f r) k).
Proof. induction k; constructor; [reflexivity|assumption]. Qed.

Lemma wait_trace_polls f n r t :
  wait_trace f n r t -> only_polls t /\ (length t <= n)%nat.
Proof.
  intros [k Hk|].
  - split.
    + apply Forall_app. split; [apply only_polls_repeat|].
      constructor; [reflexivity|constructor].
    + rewrite length_app, repeat_length. cbn. lia.
  - split; [apply only_polls_repeat|]. rewrite repeat_length. lia.
Qed.

Lemma only_polls_reads t : only_polls t -> filter is_read t = [].
Proof.
  induction 1 as [|e t He _ IH]; [reflexivity|].
  destruct e; try discriminate. cbn. exact IH.
Qed.

Lemma only_polls_writes b t : only_polls t -> data_writes b t = [].
Proof.
  induction 1 as [|e t He _ IH]; [reflexivity|].
  destruct e; try discriminate. cbn. exact IH.
Qed.

Lemma only_polls_count t : only_polls t -> poll_count t = length t.
Proof.
  unfold poll_count. induction 1 as [|e t He _ IH]; [reflexivity|].
  cbn. rewrite He. cbn. rewrite IH. reflexivity.
Qed.

Lemma poll_count_app t1 t2 : poll_count (t1 ++ t2) = (poll_count t1 + poll_count t2)%nat.
Proof. unfold poll_count. rewrite filter_app, length_app. reflexivity. Qed.

Lemma steps_completed_app t1 t2 :
  steps_completed (t1 ++ t2) = (steps_completed t1 + steps_completed t2)%nat.
Proof. unfold steps_completed. rewrite filter_app, length_app. reflexivity. Qed.

Lemma data_writes_app b t1 t2 :
  data_writes b (t1 ++ t2) = data_writes b t1 ++ data_writes b t2.
Proof.
  induction t1 as [|e t1 IH]; [reflexivity|].
  destruct e as [| r v | |]; cbn; try exact IH.
  destruct r, (SAM4E b); cbn; rewrite ?IH; reflexivity.
Qed.

Lemma data_writes_tdr b v t :
  data_writes b (EvWrite (tdr b) v :: t) = v :: data_writes b t.
Proof. unfold tdr. cbn. destruct (SAM4E b); reflexivity. Qed.

Lemma wait_trace_count f n r t :
  wait_trace f n r t ->
  steps_completed t = 0%nat /\ (poll_count t <= n)%nat /\
  forall b, data_writes b t = [].
Proof.
  intros H. apply wait_trace_polls in H. destruct H as [Hp Hl].
  split; [unfold steps_completed; rewrite only_polls_reads; auto|].
  split; [rewrite only_polls_count; auto|].
  intros b. apply only_polls_writes. exact Hp.
Qed.

Lemma step_trace_done b word v t :
  step_trace b word (Some v) t ->
  steps_completed t = 1%nat /\ (poll_count t <= 2 * budget)%nat /\
  data_writes b t = [word].
Proof.
  intros H. inversion H as [t1 t2 v' H1 H2 Hv Ht| |]; subst.
  apply wait_trace_count in H1. destruct H1 as (R1 & P1 & W1).
  apply wait_trace_count in H2. destruct H2 as (R2 & P2 & W2).
  split; [|split].
  - rewrite steps_completed_app.
    change (EvWrite (tdr b) word :: t2 ++ [EvRead (rdr b) v])
      with ([EvWrite (tdr b) word] ++ t2 ++ [EvRead (rdr b) v]).
    rewrite !steps_completed_app, R1, R2. reflexivity.
  - rewrite poll_count_app.
    change (EvWrite (tdr b) word :: t2 ++ [EvRead (rdr b) v])
      with ([EvWrite (tdr b) word] ++ t2 ++ [EvRead (rdr b) v]).
    rewrite !poll_count_app. cbn [poll_count filter is_poll length]. lia.
  - rewrite data_writes_app, data_writes_tdr, data_writes_app, W1, W2.
    reflexivity.
Qed.

Lemma step_trace_abort b word t :
  step_trace b word None t ->
  steps_completed t = 0%nat /\ (poll_count t <= 2 * budget)%nat /\
  (data_writes b t = [] \/ data_writes b t = [word]).
Proof.
  intros H. inversion H as [|t1 H1|t1 t2 H1 H2]; subst.
  - apply wait_trace_count in H1. destruct H1 as (R1 & P1 & W1).
    split; [exact R1|]. split; [lia|]. left. apply W1.
  - apply wait_trace_count in H1. destruct H1 as (R1 & P1 & W1).
    apply wait_trace_count in H2. destruct H2 as (R2 & P2 & W2).
    split; [|split].
    + change (EvWrite (tdr b) word :: t2) with ([EvWrite (tdr b) word] ++ t2).
      rewrite !steps_completed_app, R1, R2. reflexivity.
    + change (EvWrite (tdr b) word :: t2) with ([EvWrite (tdr b) word] ++ t2).
      rewrite !poll_count_app. cbn [poll_count filter is_poll length]. lia.
    + right. rewrite data_writes_app, data_writes_tdr, W1, W2. reflexivity.
Qed.

(** The status tells whether every pass completed. *)
Lemma run_trace_status b K tx_data rx_data len i n m s t m' :
  run_trace b K tx_data rx_data len i n m s t m' ->
  (s = SPI_OK /\ steps_completed t = n) \/
  (s = SPI_ERROR_TIMEOUT /\ (steps_completed t < n)%nat).
Proof.
  induction 1 as [i m|i n m m' v t ts s Hstep Hrun IH|i n m t Hstep].
  - left. split; reflexivity.
  - apply step_trace_done in Hstep. destruct Hstep as (R & _ & _).
    rewrite steps_completed_app, R.
    destruct IH as [(-> & E)|(-> & E)]; [left|right]; split; auto; lia.
  - apply step_trace_abort in Hstep. destruct Hstep as (R & _ & _).
    right. split; [reflexivity|lia].
Qed.

(** Every pass polls at most twice the budget. *)
Lemma run_trace_polls b K tx_data rx_data len i n m s t m' :
  run_trace b K tx_data rx_data len i n m s t m' ->
  (poll_count t <= n * (2 * budget))%nat.
Proof.
  induction 1 as [i m|i n m m' v t ts s Hstep Hrun IH|i n m t Hstep].
  - cbn. lia.
  - apply step_trace_done in Hstep. destruct Hstep as (_ & P & _).
    rewrite poll_count_app. rewrite Nat.mul_succ_l. lia.
  - apply step_trace_abort in Hstep. destruct Hstep as (_ & P & _).
    rewrite Nat.mul_succ_l. lia.
Qed.

(** RAM changes only where a completed pass stored its byte. *)
Lemma run_trace_frame b K tx_data rx_data len i n m s t m' :
  run_trace b K tx_data rx_data len i n m s t m' ->
  forall a,
    (forall q j, rx_data = Some q -> (i <= j < i + steps_completed t)%nat ->
                 a <> q + Z.of_nat j) ->
    m' a = m a.
Proof.
  induction 1 as [i m|i n m m' v t ts s Hstep Hrun IH|i n m t Hstep];
    intros a Ha; try reflexivity.
  apply step_trace_done in Hstep. destruct Hstep as (R & _ & _).
  rewrite steps_completed_app, R in Ha.
  rewrite IH.
  - unfold incoming. destruct rx_data as [q|]; [|reflexivity].
    unfold mem_store. destruct (Z.eqb_spec a (q + Z.of_nat i)) as [E|_]; [|reflexivity].
    exfalso. apply (Ha q i); [reflexivity|lia|exact E].
  - intros q j Hq Hj. apply Ha; [exact Hq|lia].
Qed.

(** Against a peripheral that never raises one of the two flags, the first
    pass already times out. *)
Lemma wait_trace_never f n r t :
  Forall genuine t ->
  (forall d : D, fst (hw_status f d) = false) ->
  wait_trace f n r t -> r = true.
Proof.
  intros Hg Hdead Hw. revert Hg.
  destruct Hw as [k Hk|]; intros Hg; [|reflexivity].
  apply Forall_app in Hg. destruct Hg as [_ Hg].
  inversion Hg as [|e l He _]; subst.
  cbn in He. destruct He as [d Hd].
  rewrite Hdead in Hd. discriminate.
Qed.

Lemma run_trace_dead b K tx_data rx_data len i n m s t m' :
  run_trace b K tx_data rx_data len i (S n) m s t m' ->
  Forall genuine t ->
  (forall d : D, fst (hw_status TxReady d) = false) \/
  (forall d : D, fst (hw_status RxReady d) = false) ->
  s = SPI_ERROR_TIMEOUT /\ (poll_count t <= 2 * budget)%nat.
Proof.
  intros Hrun Hg Hdead.
  inversion Hrun as [|i' n' m1 m2 v t1 ts s' Hstep Hrest|i' n' m1 t1 Hstep]; subst.
  - exfalso.
    inversion Hstep as [ta tb v' Ha Hb| |]; subst.
    apply Forall_app in Hg. destruct Hg as [Hg _].
    apply Forall_app in Hg. destruct Hg as [Hga Hg].
    inversion Hg as [|e l _ Hg']; subst.
    apply Forall_app in Hg'. destruct Hg' as [Hgb _].
    destruct Hdead as [Hd|Hd].
    + pose proof (wait_trace_never _ _ _ _ Hga Hd Ha). discriminate.
    + pose proof (wait_trace_never _ _ _ _ Hgb Hd Hb). discriminate.
  - split; [reflexivity|]. apply step_trace_abort in Hstep. tauto.
Qed.

Lemma outgoing_word_tx_word K tx_data len i m :
  Z.of_nat len < 2 ^ 32 -> (i < len)%nat ->
  outgoing_word K tx_data len i m = tx_word K tx_data len m i.
Proof.
  intros Hlen Hi. unfold outgoing_word, tx_word.
  rewrite u32_small by lia.
  destruct (Z.eqb_spec (Z.of_nat i + 1) (Z.of_nat len)),
           (Nat.eqb_spec (S i) len); try reflexivity; lia.
Qed.

Lemma tx_word_ext K tx_data len m m0 i :
  (forall p, tx_data = Some p -> m (p + Z.of_nat i) = m0 (p + Z.of_nat i)) ->
  tx_word K tx_data len m i = tx_word K tx_data len m0 i.
Proof.
  intros H. unfold tx_word. destruct tx_data as [p|]; [|reflexivity].
  rewrite (H p eq_refl). reflexivity.
Qed.

(** The words sent are those of the outgoing buffer as it was on entry. *)
Lemma run_trace_writes b K tx_data rx_data len i n m s t m' :
  run_trace b K tx_data rx_data len i n m s t m' ->
  forall m0,
    Z.of_nat len < 2 ^ 32 -> (i + n = len)%nat ->
    hazard_free tx_data rx_data len ->
    (forall p k, tx_data = Some p -> (i <= k < len)%nat ->
                 m (p + Z.of_nat k) = m0 (p + Z.of_nat k)) ->
    exists k, (k <= n)%nat /\
      data_writes b t = map (tx_word K tx_data len m0) (seq i k) /\
      (s = SPI_OK -> k = n).
Proof.
  induction 1 as [i m|i n m m' v t ts s Hstep Hrun IH|i n m t Hstep];
    intros m0 Hlen Hin Hz Hagree.
  - exists 0%nat. repeat split. lia.
  - apply step_trace_done in Hstep. destruct Hstep as (_ & _ & W).
    destruct (IH m0) as (k & Hk & Hw & Hok); try assumption; try lia.
    { intros p k Hp Hk. unfold incoming. destruct rx_data as [q|].
      - unfold mem_store.
        destruct (Z.eqb_spec (p + Z.of_nat k) (q + Z.of_nat i)) as [E|_].
        + exfalso. apply (Hz p q i k Hp eq_refl); [lia|]. symmetry. exact E.
        + apply Hagree; [exact Hp|lia].
      - apply Hagree; [exact Hp|lia]. }
    exists (S k). split; [lia|]. split.
    + rewrite data_writes_app, W, Hw.
      rewrite outgoing_word_tx_word by lia.
      rewrite (tx_word_ext K tx_data len m m0 i).
      * reflexivity.
      * intros p Hp. apply Hagree; [exact Hp|lia].
    + intros Hs. rewrite (Hok Hs). reflexivity.
  - apply step_trace_abort in Hstep. destruct Hstep as (_ & _ & [W|W]).
    + exists 0%nat. split; [lia|]. split; [exact W|]. discriminate.
    + exists 1%nat. split; [lia|]. split; [|discriminate].
      rewrite W. rewrite outgoing_word_tx_word by lia.
      rewrite (tx_word_ext K tx_data len m m0 i).
      * reflexivity.
      * intros p Hp. apply Hagree; [exact Hp|lia].
Qed.

(** ** The transfer *)

(** C1.  Whatever the length, a call to [sspi_transceive_packet] returns,
    and what it did has the specified shape: every wait for transmit-ready
    and for receive-ready polls with a budget of 15000 attempts; a pass
    whose wait uses up the budget ends the call with [SPI_ERROR_TIMEOUT]
    right after the last refused poll, with no later pass run; and the
    status is [SPI_OK] exactly when all [len] passes completed. *)
Theorem transceive_timeout_policy b K fuel tx_data rx_data len w :
  (budget <= fuel)%nat ->
  Z.of_nat budget = 15000 /\
  exists s w' t,
    sspi_transceive_packet b K fuel tx_data rx_data len w = Ret s w' /\
    trace w' = trace w ++ t /\
    run_trace b K tx_data rx_data len 0 len (mem w) s t (mem w') /\
    (s = SPI_OK <-> steps_completed t = len) /\
    (s = SPI_ERROR_TIMEOUT <-> (steps_completed t < len)%nat).
Proof.
  intros Hfuel. split; [exact budget_Z|].
  unfold sspi_transceive_packet.
  destruct (transceive_loop_spec b K fuel tx_data rx_data len Hfuel len 0%nat w)
    as (s & w' & t & H & Ht & _ & _ & Hrun).
  exists s, w', t. split; [exact H|]. split; [exact Ht|]. split; [exact Hrun|].
  destruct (run_trace_status _ _ _ _ _ _ _ _ _ _ _ Hrun) as [(-> & E)|(-> & E)].
  - split; split; intros G; try reflexivity; try assumption;
      try discriminate; lia.
  - split; split; intros G; try reflexivity; try assumption;
      try discriminate; lia.
Qed.

(** C4.  [sspi_transceive_packet] returns on every input, after at most
    two budgets of polls per pass.  Against a peripheral that never raises
    transmit-ready, or never raises receive-ready, a transfer of at least
    one byte returns [SPI_ERROR_TIMEOUT] within two budgets of polls.  Each
    of the three wait loops of the driver returns after a bounded number
    of polls: the budget for transmit-ready and receive-ready, one more
    for transmit-empty. *)
Theorem transceive_terminates b K fuel tx_data rx_data len w :
  (budget <= fuel)%nat ->
  (exists s w' t,
     sspi_transceive_packet b K fuel tx_data rx_data len w = Ret s w' /\
     trace w' = trace w ++ t /\
     (poll_count t <= len * (2 * budget))%nat /\
     ((0 < len)%nat ->
      (forall d : D, fst (hw_status TxReady d) = false) \/
      (forall d : D, fst (hw_status RxReady d) = false) ->
      s = SPI_ERROR_TIMEOUT /\ (poll_count t <= 2 * budget)%nat)) /\
  (forall w0, exists r w1 t1,
     waitForTxReady fuel w0 = Ret r w1 /\ trace w1 = trace w0 ++ t1 /\
     (poll_count t1 <= budget)%nat) /\
  (forall w0, exists r w1 t1,
     waitForRxReady fuel w0 = Ret r w1 /\ trace w1 = trace w0 ++ t1 /\
     (poll_count t1 <= budget)%nat) /\
  (forall w0, exists r w1 t1,
     waitForTxEmpty (S fuel) w0 = Ret r w1 /\ trace w1 = trace w0 ++ t1 /\
     (poll_count t1 <= S budget)%nat).
Proof.
  intros Hfuel. split; [|split; [|split]].
  - unfold sspi_transceive_packet.
    destruct (transceive_loop_spec b K fuel tx_data rx_data len Hfuel len 0%nat w)
      as (s & w' & t & H & Ht & Hg & _ & Hrun).
    exists s, w', t. split; [exact H|]. split; [exact Ht|].
    split; [eapply run_trace_polls; exact Hrun|].
    intros Hpos Hdead. destruct len as [|n]; [lia|].
    eapply run_trace_dead; eassumption.
  - intros w0.
    destruct (waitForTxReady_spec fuel w0 Hfuel) as (r & w1 & t1 & H & Ht & Hw & _).
    exists r, w1, t1. split; [exact H|]. split; [exact Ht|].
    apply wait_trace_count in Hw. tauto.
  - intros w0.
    destruct (waitForRxReady_spec fuel w0 Hfuel) as (r & w1 & t1 & H & Ht & Hw & _).
    exists r, w1, t1. split; [exact H|]. split; [exact Ht|].
    apply wait_trace_count in Hw. tauto.
  - intros w0.
    destruct (waitForTxEmpty_spec (S fuel) w0) as (r & w1 & t1 & H & Ht & Hw & _);
      [lia|].
    exists r, w1, t1. split; [exact H|]. split; [exact Ht|].
    apply wait_trace_count in Hw. tauto.
Qed.

(** C10, as amended.  When [sspi_transceive_packet] returns after [i]
    completed passes, RAM differs from what it was only at indices 0 to
    [i - 1] of the incoming buffer, and not at all without one: after a
    time-out in pass [i] every entry of the incoming buffer from index [i]
    on keeps its value.  The outgoing buffer is unchanged whenever it
    shares no byte with the incoming buffer.  A call with length 0 returns
    [SPI_OK] and leaves the whole state, trace included, as it was. *)
Theorem transceive_frame b K fuel tx_data rx_data len w :
  (budget <= fuel)%nat ->
  exists s w' t,
    sspi_transceive_packet b K fuel tx_data rx_data len w = Ret s w' /\
    trace w' = trace w ++ t /\
    same_statics w w' /\
    (forall a,
       (forall q j, rx_data = Some q -> (j < steps_completed t)%nat ->
                    a <> q + Z.of_nat j) ->
       mem w' a = mem w a) /\
    (s = SPI_ERROR_TIMEOUT ->
     (steps_completed t < len)%nat /\
     forall q k, rx_data = Some q -> (steps_completed t <= k)%nat ->
                 mem w' (q + Z.of_nat k) = mem w (q + Z.of_nat k)) /\
    (disjoint_buffers tx_data rx_data len ->
     forall p k, tx_data = Some p -> (k < len)%nat ->
                 mem w' (p + Z.of_nat k) = mem w (p + Z.of_nat k)) /\
    (len = 0%nat -> s = SPI_OK /\ w' = w).
Proof.
  intros Hfuel. unfold sspi_transceive_packet.
  destruct (transceive_loop_spec b K fuel tx_data rx_data len Hfuel len 0%nat w)
    as (s & w' & t & H & Ht & _ & Hs & Hrun).
  pose proof (run_trace_frame _ _ _ _ _ _ _ _ _ _ _ Hrun) as Hframe.
  pose proof (run_trace_status _ _ _ _ _ _ _ _ _ _ _ Hrun) as Hstat.
  assert (Hdone : (steps_completed t <= len)%nat)
    by (destruct Hstat as [(_ & E)|(_ & E)]; lia).
  exists s, w', t. split; [exact H|]. split; [exact Ht|]. split; [exact Hs|].
  split; [|split; [|split]].
  - intros a Ha. apply Hframe. intros q j Hq Hj. apply Ha; [exact Hq|lia].
  - intros ->. destruct Hstat as [(E & _)|(_ & E)]; [discriminate|].
    split; [exact E|]. intros q k Hq Hk. apply Hframe.
    intros q' j Hq' Hj. rewrite Hq in Hq'. injection Hq' as <-. lia.
  - intros Hdisj p k Hp Hk. apply Hframe.
    intros q j Hq Hj. intros E. apply (Hdisj p q j k Hp Hq); [lia|exact Hk|].
    symmetry. exact E.
  - intros ->. cbn in H. unfold ret in H. injection H as <- <-.
    split; reflexivity.
Qed.

(** ** Bus lock *)

Lemma sspi_acquire_eq w :
  sspi_acquire w =
  Ret (negb (sspiLocked w))
      (mkWorld true (init_comms w) (irq_enabled w) (SystemCoreClock w)
               (mem w) (dev w) (trace w)).
Proof.
  unfold sspi_acquire, bind, cpu_irq_save, get_sspiLocked. cbn.
  destruct (sspiLocked w); reflexivity.
Qed.

(** C3.  From the unlocked state [sspi_acquire] returns true and the bus
    is held; a second [sspi_acquire] returns false and leaves the state as
    it is, the bus still held; after [sspi_release] the next
    [sspi_acquire] returns true again.  In any state [sspi_acquire]
    returns at once, true exactly when the bus was free, and
    [sspi_release] clears the flag. *)
Theorem acquire_release_protocol w :
  sspiLocked w = false ->
  (exists w1 w2 w3,
     sspi_acquire w = Ret true w1 /\ sspiLocked w1 = true /\
     sspi_acquire w1 = Ret false w1 /\
     sspi_release w1 = Ret tt w2 /\ sspiLocked w2 = false /\
     sspi_acquire w2 = Ret true w3 /\ sspiLocked w3 = true) /\
  (forall w0, exists w0',
     sspi_acquire w0 = Ret (negb (sspiLocked w0)) w0' /\
     sspiLocked w0' = true /\
     irq_enabled w0' = irq_enabled w0) /\
  (forall w0, exists w0',
     sspi_release w0 = Ret tt w0' /\ sspiLocked w0' = false).
Proof.
  intros Hfree. split; [|split].
  - eexists. eexists. eexists.
    split; [rewrite sspi_acquire_eq, Hfree; reflexivity|].
    split; [reflexivity|].
    split; [rewrite sspi_acquire_eq; reflexivity|].
    split; [reflexivity|]. split; [reflexivity|].
    split; [rewrite sspi_acquire_eq; reflexivity|]. reflexivity.
  - intros w0. eexists. split; [apply sspi_acquire_eq|]. split; reflexivity.
  - intros w0. eexists. split; reflexivity.
Qed.

(** ** Bring-up *)

(** C9.  [sspi_master_init] returns for every requested width.  On the
    USART build the device record gets the 8-bit character length whatever
    was asked, 16 included.  On the other builds a request for 16 gets the
    16-bit setting and every other request the 8-bit one.  The 16-bit
    transfer is compiled only into a build that is not the USART one. *)
Theorem master_init_word_width b K device bits_req w :
  exists d' w',
    sspi_master_init b K device bits_req w = Ret d' w' /\
    id d' = id device /\ csPin d' = csPin device /\
    (SAM4E b = true -> bits d' = US_MR_CHRL_8_BIT K) /\
    (SAM4E b = false -> bits_req <> 16 -> bits d' = SPI_CSR_BITS_8_BIT K) /\
    (SAM4E b = false -> bits_req = 16 -> bits d' = SPI_CSR_BITS_16_BIT K) /\
    (compiled b Fn_sspi_transceive_packet16 = true -> SAM4E b = false).
Proof.
  assert (Hret : exists w',
    sspi_master_init b K device bits_req w =
    Ret (if SAM4E b then
           mkDevice (id device) (csPin device) (US_MR_CHRL_8_BIT K)
         else if bits_req =? 16
              then mkDevice (id device) (csPin device) (SPI_CSR_BITS_16_BIT K)
              else mkDevice (id device) (csPin device) (SPI_CSR_BITS_8_BIT K))
        w').
  { unfold sspi_master_init.
    rewrite (bind_Ret _ _ _ _ _ (eq_refl : get_init_comms w = Ret _ w)).
    destruct (init_comms w); [|eexists; reflexivity].
    destruct (SAM4E b).
    { symbolic_run.
      eexists. reflexivity. }
    destruct (USE_SAM3X_DMAC b);
      symbolic_run;
      eexists; reflexivity. }
  destruct Hret as (w' & H). eexists. exists w'. split; [exact H|].
  destruct b as [c dmac]. unfold SAM4E, SAM3XA, compiled. cbn [target].
  destruct c; cbn;
    destruct (Z.eqb_spec bits_req 16); cbn; repeat split;
    intros; try reflexivity; try discriminate; try contradiction.
Qed.

(** ** Device setup *)

Lemma field_bit_clear mask v : Z.land v mask = 0 -> field_bit mask v = 0.
Proof. intros H. unfold field_bit. rewrite H. reflexivity. Qed.

Lemma field_bit_set mask v : mask <> 0 -> field_bit mask (Z.lor v mask) = 1.
Proof.
  intros H. unfold field_bit.
  rewrite Z.land_lor_distr_l, Z.land_diag.
  destruct (Z.eqb_spec (Z.lor (Z.land v mask) mask) 0) as [E|_]; [|reflexivity].
  apply Z.lor_eq_0_iff in E. tauto.
Qed.

Lemma field_bit_other mask v o :
  Z.land o mask = 0 -> field_bit mask (Z.lor v o) = field_bit mask v.
Proof.
  intros H. unfold field_bit.
  rewrite Z.land_lor_distr_l, H, Z.lor_0_r. reflexivity.
Qed.


(** What a call of [sspi_master_setup_device] with a non-zero rate does. *)
Lemma setup_device_trace b K device spiMode baud_rate w :
  baud_rate <> 0 ->
  exists w',
    sspi_master_setup_device b K device spiMode baud_rate w = Ret tt w' /\
    trace w' = trace w ++
      (if SAM4E b then
         [EvWrite US_CR (Z.lor (US_CR_RSTRX K) (US_CR_RSTTX K));
          EvWrite US_MR
            (let mr := us_mr_base K in
             let mr := if Z.land spiMode 2 =? 0 then mr
                       else Z.lor mr (US_MR_CPOL K) in
             if Z.land spiMode 1 =? 0 then mr else Z.lor mr (US_MR_CPHA K));
          EvWrite US_BRGR (SystemCoreClock w / baud_rate);
          EvWrite US_CR (Z.lor (US_CR_RXEN K) (US_CR_TXEN K))]
       else
         [EvCall spi_reset;
          EvCall spi_set_master_mode;
          EvCall (spi_set_bits_per_transfer (id device) (bits device));
          EvCall (spi_set_baudrate_div (id device)
                    (s16 (SystemCoreClock w / baud_rate)));
          EvCall (spi_set_clock_polarity (id device) (Z.shiftr spiMode 1));
          EvCall (spi_set_clock_phase (id device)
                    (Z.lxor (Z.land spiMode 1) 1));
          EvCall spi_enable]).
Proof.
  intros Hbaud. apply Z.eqb_neq in Hbaud.
  unfold sspi_master_setup_device, spi_calc_baudrate_div.
  destruct (SAM4E b).
  - symbolic_run. rewrite Hbaud.
    eexists. split; [reflexivity|]. cbv [trace].
    rewrite <- !app_assoc. reflexivity.
  - symbolic_run. rewrite Hbaud.
    eexists. split; [reflexivity|]. cbv [trace].
    rewrite <- !app_assoc. reflexivity.
Qed.

Lemma header_ok_fields K :
  header_ok K = true ->
  US_MR_CPOL K <> 0 /\ US_MR_CPHA K <> 0 /\
  Z.land (us_mr_base K) (US_MR_CPOL K) = 0 /\
  Z.land (us_mr_base K) (US_MR_CPHA K) = 0 /\
  Z.land (US_MR_CPOL K) (US_MR_CPHA K) = 0.
Proof.
  unfold header_ok. rewrite !andb_true_iff, !negb_true_iff.
  rewrite !Z.eqb_eq, !Z.eqb_neq. tauto.
Qed.

(** C2, as the code has it.  For [spiMode] 0 to 3 the clock polarity handed
    to the hardware is [(spiMode >> 1) & 1] on every build.  The clock phase
    handed to the SPI peripheral is the inverse of the low mode bit; the
    phase field written to the USART mode register is the low mode bit
    itself. *)
Theorem setup_device_clock_mode b K device spiMode baud_rate w :
  header_ok K = true ->
  0 <= spiMode <= 3 ->
  baud_rate <> 0 ->
  exists w' t,
    sspi_master_setup_device b K device spiMode baud_rate w = Ret tt w' /\
    trace w' = trace w ++ t /\
    last_of (clock_polarity_of K) t = Some (Z.land (Z.shiftr spiMode 1) 1) /\
    last_of (clock_phase_of K) t =
      Some (if SAM4E b then Z.land spiMode 1 else 1 - Z.land spiMode 1).
Proof.
  intros HK Hmode Hbaud.
  destruct (setup_device_trace b K device spiMode baud_rate w Hbaud)
    as (w' & H & Ht).
  eexists. eexists. split; [exact H|]. split; [exact Ht|].
  apply header_ok_fields in HK. destruct HK as (P0 & A0 & BP & BA & PA).
  assert (AP : Z.land (US_MR_CPHA K) (US_MR_CPOL K) = 0)
    by (rewrite Z.land_comm; exact PA).
  assert (Hcases : spiMode = 0 \/ spiMode = 1 \/ spiMode = 2 \/ spiMode = 3)
    by lia.
  destruct (SAM4E b);
    cbn [last_of fold_left clock_polarity_of clock_phase_of];
    destruct Hcases as [-> | [-> | [-> | ->]]];
    cbv zeta; simpl (Z.land _ _ =? 0); cbv iota;
    split; try reflexivity.
  - rewrite field_bit_clear by assumption. reflexivity.
  - rewrite field_bit_clear by assumption. reflexivity.
  - rewrite field_bit_other, field_bit_clear by assumption. reflexivity.
  - rewrite field_bit_set by assumption. reflexivity.
  - rewrite field_bit_set by assumption. reflexivity.
  - rewrite field_bit_other, field_bit_clear by assumption. reflexivity.
  - rewrite field_bit_other, field_bit_set by assumption. reflexivity.
  - rewrite field_bit_set by assumption. reflexivity.
Qed.


(** ** Chip select *)

Lemma select_device_run b device w :
  exists w',
    sspi_select_device b device w = Ret tt w' /\
    trace w' = trace w ++
      (if SAM3XA b && (id device <? MAX_NUM_WITHOUT_DECODER)
       then [EvCall (spi_set_peripheral_chip_select_value
                       (Z.lnot (Z.shiftl 1 (id device))))]
       else []) ++
      [EvCall (digitalWrite (csPin device) LOW)].
Proof.
  unfold sspi_select_device.
  destruct (SAM3XA b); [destruct (id device <? MAX_NUM_WITHOUT_DECODER)|];
    cbn [andb]; eexists; (split; [reflexivity|]);
    cbn [trace]; rewrite <- ?app_assoc; reflexivity.
Qed.

Lemma deselect_device_run b fuel device w :
  (S budget <= fuel)%nat ->
  exists w' r tw,
    sspi_deselect_device b fuel device w = Ret tt w' /\
    wait_trace TxEmpty (S budget) r tw /\
    trace w' = trace w ++ tw ++
      (if SAM3XA b
       then [EvCall spi_set_lastxfer;
             EvCall (spi_set_peripheral_chip_select_value NONE_CHIP_SELECT_ID)]
       else []) ++
      [EvCall (digitalWrite (csPin device) HIGH)].
Proof.
  intros Hfuel. unfold sspi_deselect_device.
  destruct (waitForTxEmpty_spec fuel w Hfuel) as (r & w1 & tw & H & Ht & Hw & _).
  rewrite (bind_Ret _ _ _ _ _ H); cbv beta.
  destruct (SAM3XA b); eexists; exists r, tw;
    (split; [reflexivity|]); (split; [exact Hw|]);
    cbn [trace]; rewrite Ht, <- ?app_assoc; reflexivity.
Qed.

(** C7.  [sspi_deselect_device] returns for every device, and what it does
    is, in this order: a wait for transmit-empty of at most
    [SPI_TIMEOUT + 1] polls, whose outcome is not looked at; on a [SAM3XA]
    build the last-transfer mark and then the chip-select value set to the
    no-device value; and last of all the chip-select pin driven high.
    Hence [sspi_select_device] followed at once by [sspi_deselect_device]
    returns. *)
Theorem deselect_sequence b fuel device w :
  (S budget <= fuel)%nat ->
  (exists w' r tw,
     sspi_deselect_device b fuel device w = Ret tt w' /\
     wait_trace TxEmpty (S budget) r tw /\
     only_polls tw /\ (length tw <= S budget)%nat /\
     trace w' = trace w ++ tw ++
       (if SAM3XA b
        then [EvCall spi_set_lastxfer;
              EvCall (spi_set_peripheral_chip_select_value NONE_CHIP_SELECT_ID)]
        else []) ++
       [EvCall (digitalWrite (csPin device) HIGH)]) /\
  (exists w'',
     (sspi_select_device b device ;;; sspi_deselect_device b fuel device) w
     = Ret tt w'').
Proof.
  intros Hfuel. split.
  - destruct (deselect_device_run b fuel device w Hfuel)
      as (w' & r & tw & H & Hw & Ht).
    exists w', r, tw. split; [exact H|]. split; [exact Hw|].
    destruct (wait_trace_polls _ _ _ _ Hw) as [Hp Hl].
    repeat split; assumption.
  - destruct (select_device_run b device w) as (w1 & H1 & _).
    destruct (deselect_device_run b fuel device w1 Hfuel)
      as (w2 & _ & _ & H2 & _).
    exists w2. rewrite (bind_Ret _ _ _ _ _ H1). exact H2.
Qed.

(** C8, as amended.  [sspi_select_device] always drives the chip-select
    pin of the device low, as the last thing it does.  On a [SAM3XA] build
    it first sets the peripheral chip-select value to the bitwise
    complement of [1 << id], provided [id] is below
    [MAX_NUM_WITHOUT_DECODER], which is 4; for a larger [id], and on every
    other build, it sets no chip-select value. *)
Theorem select_device_chip_select b device w :
  (exists w',
     sspi_select_device b device w = Ret tt w' /\
     trace w' = trace w ++
       (if SAM3XA b && (id device <? 4)
        then [EvCall (spi_set_peripheral_chip_select_value
                        (Z.lnot (Z.shiftl 1 (id device))))]
        else []) ++
       [EvCall (digitalWrite (csPin device) LOW)]) /\
  (forall k, 0 <= id device -> 0 <= k ->
     Z.testbit (Z.lnot (Z.shiftl 1 (id device))) k = negb (k =? id device)).
Proof.
  split.
  - exact (select_device_run b device w).
  - intros k Hid Hk.
    rewrite Z.lnot_spec by exact Hk.
    rewrite Z.shiftl_1_l, Z.pow2_bits_eqb by exact Hid.
    rewrite Z.eqb_sym. reflexivity.
Qed.

End Properties.

(** * The properties at concrete inputs *)

(** The driver run against the mock peripherals. *)

Example loopback_echoes :
  exists w',
    sspi_transceive_packet native_build sam_device_header budget
      (Some 100) (Some 200) 3 (boot (mkLoopback 0)) = Ret SPI_OK w' /\
    map (mem w') [200; 201; 202] = [100; 101; 102] /\
    data_writes native_build (trace w') = [100; 101; Z.lor 102 (Z.shiftl 1 24)].
Proof. eexists. split; [vm_compute; reflexivity|]. split; reflexivity. Qed.

Example fill_value_sent :
  exists w',
    sspi_transceive_packet usart_build sam_device_header budget
      None None 3 (boot (mkLoopback 0)) = Ret SPI_OK w' /\
    data_writes usart_build (trace w') = [0xFF; 0xFF; Z.lor 0xFF (Z.shiftl 1 24)].
Proof. eexists. split; [vm_compute; reflexivity|]. reflexivity. Qed.

(** Nothing answers: the wait for transmit-ready gives up after
    [SPI_TIMEOUT] polls, the wait for transmit-empty after one more. *)
Example tx_ready_gives_up :
  exists w',
    waitForTxReady budget (boot DeadBus) = Ret true w' /\
    trace w' = repeat (EvPoll TxReady false) budget.
Proof.
  destruct (waitForTxReady_spec budget (boot DeadBus) (le_n _))
    as (r & w' & t & H & Ht & Hw & Hg & _).
  assert (Hr : r = true).
  { apply (wait_trace_never TxReady budget r t Hg); [|exact Hw].
    intros d. reflexivity. }
  subst r. inversion Hw; subst. exists w'. split; [exact H|exact Ht].
Qed.

Example tx_empty_gives_up :
  exists w',
    waitForTxEmpty (S budget) (boot DeadBus) = Ret true w' /\
    trace w' = repeat (EvPoll TxEmpty false) (S budget).
Proof.
  destruct (waitForTxEmpty_spec (S budget) (boot DeadBus) (le_n _))
    as (r & w' & t & H & Ht & Hw & Hg & _).
  assert (Hr : r = true).
  { apply (wait_trace_never TxEmpty (S budget) r t Hg); [|exact Hw].
    intros d. reflexivity. }
  subst r. inversion Hw; subst. exists w'. split; [exact H|exact Ht].
Qed.

Lemma transceive_timeout_policy_witness :
  (budget <= budget)%nat /\
  (Z.of_nat budget = 15000 /\
   exists s w' t,
     sspi_transceive_packet native_build sam_device_header budget
       (Some 100) (Some 200) 3 (boot (mkLoopback 0)) = Ret s w' /\
     trace w' = trace (boot (mkLoopback 0)) ++ t /\
     run_trace native_build sam_device_header (Some 100) (Some 200) 3 0 3
       (mem (boot (mkLoopback 0))) s t (mem w') /\
     (s = SPI_OK <-> steps_completed t = 3%nat) /\
     (s = SPI_ERROR_TIMEOUT <-> (steps_completed t < 3)%nat)).
Proof.
  split; [apply le_n|].
  apply (transceive_timeout_policy native_build sam_device_header budget
           (Some 100) (Some 200) 3 (boot (mkLoopback 0))).
  apply le_n.
Defined.

(** C2 at a failing input: on the USART build, mode 0 leaves the phase
    field of the mode register clear, where the inverse of the low mode
    bit is 1. *)
Lemma setup_device_usart_phase_mode0 :
  exists w',
    sspi_master_setup_device usart_build sam_device_header
      (mkDevice 0 7 0) 0 1000000 (boot DeadBus) = Ret tt w' /\
    last_of (clock_phase_of sam_device_header) (trace w') = Some 0 /\
    1 - Z.land 0 1 = 1.
Proof. eexists. split; [vm_compute; reflexivity|]. split; reflexivity. Qed.

Lemma setup_device_clock_mode_witness :
  header_ok sam_device_header = true /\ 0 <= 1 <= 3 /\ 1000000 <> 0 /\
  exists w' t,
    sspi_master_setup_device usart_build sam_device_header
      (mkDevice 0 7 0) 1 1000000 (boot DeadBus) = Ret tt w' /\
    trace w' = trace (boot DeadBus) ++ t /\
    last_of (clock_polarity_of sam_device_header) t
      = Some (Z.land (Z.shiftr 1 1) 1) /\
    last_of (clock_phase_of sam_device_header) t
      = Some (if SAM4E usart_build then Z.land 1 1 else 1 - Z.land 1 1).
Proof.
  split; [reflexivity|]. split; [lia|]. split; [lia|].
  apply (setup_device_clock_mode usart_build sam_device_header
           (mkDevice 0 7 0) 1 1000000 (boot DeadBus)).
  - reflexivity.
  - lia.
  - lia.
Defined.

Lemma acquire_release_protocol_witness :
  sspiLocked (boot DeadBus) = false /\
  exists w1 w2 w3,
    sspi_acquire (boot DeadBus) = Ret true w1 /\ sspiLocked w1 = true /\
    sspi_acquire w1 = Ret false w1 /\
    sspi_release w1 = Ret tt w2 /\ sspiLocked w2 = false /\
    sspi_acquire w2 = Ret true w3 /\ sspiLocked w3 = true.
Proof.
  split; [reflexivity|].
  apply (proj1 (acquire_release_protocol (boot DeadBus) eq_refl)).
Defined.

Lemma transceive_terminates_witness :
  (budget <= budget)%nat /\
  exists s w' t,
    sspi_transceive_packet native_build sam_device_header budget
      (Some 100) (Some 200) 3 (boot DeadBus) = Ret s w' /\
    trace w' = trace (boot DeadBus) ++ t /\
    s = SPI_ERROR_TIMEOUT /\ (poll_count t <= 2 * budget)%nat.
Proof.
  split; [apply le_n|].
  destruct (proj1 (transceive_terminates native_build sam_device_header budget
                     (Some 100) (Some 200) 3 (boot DeadBus) (le_n _)))
    as (s & w' & t & H & Ht & _ & Hdead).
  exists s, w', t. split; [exact H|]. split; [exact Ht|].
  apply Hdead; [lia|]. left. intros d. reflexivity.
Defined.



Lemma deselect_sequence_witness :
  (S budget <= S budget)%nat /\
  exists w'',
    (sspi_select_device native_build (mkDevice 2 7 0) ;;;
     sspi_deselect_device native_build (S budget) (mkDevice 2 7 0))
      (boot DeadBus) = Ret tt w''.
Proof.
  split; [apply le_n|].
  apply (proj2 (deselect_sequence native_build (S budget) (mkDevice 2 7 0)
                  (boot DeadBus) (le_n _))).
Defined.

(** C8 as stated fails: device 4 is within the range of a chip-select
    decoder, which addresses [MAX_NUM_WITH_DECODER] devices, and selecting
    it on a [SAM3XA] build sets no chip-select value at all. *)
Lemma select_device_decoder_range_counterexample :
  0 <= id (mkDevice 4 7 0) < MAX_NUM_WITH_DECODER /\
  exists w',
    sspi_select_device native_build (mkDevice 4 7 0) (boot DeadBus)
      = Ret tt w' /\
    forall v, ~ In (EvCall (spi_set_peripheral_chip_select_value v)) (trace w').
Proof.
  split; [cbn; unfold MAX_NUM_WITH_DECODER; lia|].
  eexists. split; [vm_compute; reflexivity|].
  intros v [H|[]]. discriminate.
Qed.

Lemma select_device_chip_select_witness :
  0 <= id (mkDevice 2 7 0) /\ 0 <= 2 /\
  Z.testbit (Z.lnot (Z.shiftl 1 (id (mkDevice 2 7 0)))) 2
    = negb (2 =? id (mkDevice 2 7 0)).
Proof.
  split; [cbn; lia|]. split; [lia|].
  apply (proj2 (select_device_chip_select native_build (mkDevice 2 7 0)
                  (boot DeadBus))); cbn; lia.
Defined.

Lemma master_init_word_width_witness :
  SAM4E usart_build = true /\
  exists d' w',
    sspi_master_init usart_build sam_device_header (mkDevice 0 7 0) 16
      (boot DeadBus) = Ret d' w' /\
    bits d' = US_MR_CHRL_8_BIT sam_device_header.
Proof.
  split; [reflexivity|].
  destruct (master_init_word_width usart_build sam_device_header
              (mkDevice 0 7 0) 16 (boot DeadBus))
    as (d' & w' & H & _ & _ & H8 & _).
  exists d', w'. split; [exact H|]. apply H8. reflexivity.
Defined.

(** C10 as stated fails: a transfer in place, with the same buffer handed
    over as outgoing and incoming, overwrites the outgoing buffer with
    what was received. *)
Lemma transceive_in_place_counterexample :
  exists w',
    sspi_transceive_packet native_build sam_device_header budget
      (Some 100) (Some 100) 1 (boot IdleSlave) = Ret SPI_OK w' /\
    mem (boot IdleSlave) 100 = 100 /\
    mem w' 100 = 0.
Proof. eexists. split; [vm_compute; reflexivity|]. split; reflexivity. Qed.

Lemma transceive_frame_witness :
  (budget <= budget)%nat /\
  disjoint_buffers (Some 100) (Some 200) 3 /\
  exists s w',
    sspi_transceive_packet native_build sam_device_header budget
      (Some 100) (Some 200) 3 (boot (mkLoopback 0)) = Ret s w' /\
    forall p k, Some 100 = Some p -> (k < 3)%nat ->
      mem w' (p + Z.of_nat k) = mem (boot (mkLoopback 0)) (p + Z.of_nat k).
Proof.
  assert (Hd : disjoint_buffers (Some 100) (Some 200) 3).
  { intros p q j k Hp Hq Hj Hk. injection Hp as <-. injection Hq as <-. lia. }
  split; [apply le_n|]. split; [exact Hd|].
  destruct (transceive_frame native_build sam_device_header budget
              (Some 100) (Some 200) 3 (boot (mkLoopback 0)) (le_n _))
    as (s & w' & t & H & _ & _ & _ & _ & Hout & _).
  exists s, w'. split; [exact H|]. exact (Hout Hd).
Defined.

(** * Further properties of the driver *)

Section MoreProperties.

Context {D : Type} {HW : SpiHw D}.

Implicit Types (w : world D) (t : list event) (f : status_flag).

(** ** The wait loops and the answers of the peripheral *)

Lemma poll_answer f w r d1 :
  hw_status f (dev w) = (r, d1) ->
  exists w1,
    poll f w = Ret r w1 /\
    trace w1 = trace w ++ [EvPoll f r] /\
    dev w1 = d1 /\
    same_software w w1.
Proof.
  intros E. unfold poll. rewrite E.
  eexists. split; [reflexivity|]. split; [reflexivity|].
  split; [reflexivity|]. repeat split.
Qed.

Lemma wait_predec_answers f n :
  forall fuel w,
    (S n <= fuel)%nat -> Z.of_nat (S n) < 2 ^ 32 ->
    exists w',
      wait_predec f fuel (Z.of_nat (S n)) w
        = Ret (gave_up (fst (poll_until f (S n) (dev w)))) w' /\
      trace w' = trace w ++ wait_events f (S n) (fst (poll_until f (S n) (dev w))) /\
      dev w' = snd (poll_until f (S n) (dev w)) /\
      same_software w w'.
Proof.
  induction n as [|n IH]; intros fuel w Hfuel Hrange;
    (destruct fuel as [|fuel]; [lia|]);
    rewrite wait_predec_unfold;
    destruct (hw_status f (dev w)) as [r d1] eqn:E;
    destruct (poll_answer f w r d1 E) as (w1 & Hp & Ht & Hd & Hs);
    rewrite Hp.
  - cbn [poll_until]. rewrite E. destruct r; cbn.
    + exists w1. repeat split; try apply Hs; auto.
    + exists w1. repeat split; try apply Hs; auto.
  - change (poll_until f (S (S n)) (dev w))
      with (let (r, d') := hw_status f (dev w) in
            if r then (Some O, d')
            else let (k, d'') := poll_until f (S n) d' in (option_map S k, d'')).
    rewrite E. destruct r.
    + exists w1. repeat split; try apply Hs; auto.
    + replace (u32 (Z.of_nat (S (S n)) - 1)) with (Z.of_nat (S n))
        by (rewrite u32_small; lia).
      destruct (Z.eqb_spec (Z.of_nat (S n)) 0) as [E0|_]; [lia|].
      destruct (IH fuel w1) as (w' & Hr & Ht' & Hd' & Hs'); [lia|lia|].
      rewrite Hd in Hr, Ht', Hd'.
      destruct (poll_until f (S n) d1) as [k d2].
      exists w'. cbn [fst snd] in *.
      split; [destruct k; exact Hr|]. split.
      * rewrite Ht', Ht, <- app_assoc. destruct k; reflexivity.
      * split; [exact Hd'|]. eapply same_software_trans; eassumption.
Qed.

Lemma wait_postdec_answers f n :
  forall fuel w,
    (S n <= fuel)%nat -> Z.of_nat n < 2 ^ 32 ->
    exists w',
      wait_postdec f fuel (Z.of_nat n) w
        = Ret (gave_up (fst (poll_until f (S n) (dev w)))) w' /\
      trace w' = trace w ++ wait_events f (S n) (fst (poll_until f (S n) (dev w))) /\
      dev w' = snd (poll_until f (S n) (dev w)) /\
      same_software w w'.
Proof.
  induction n as [|n IH]; intros fuel w Hfuel Hrange;
    (destruct fuel as [|fuel]; [lia|]);
    rewrite wait_postdec_unfold;
    destruct (hw_status f (dev w)) as [r d1] eqn:E;
    destruct (poll_answer f w r d1 E) as (w1 & Hp & Ht & Hd & Hs);
    rewrite Hp.
  - cbn [poll_until]. rewrite E. destruct r; cbn.
    + exists w1. repeat split; try apply Hs; auto.
    + exists w1. repeat split; try apply Hs; auto.
  - change (poll_until f (S (S n)) (dev w))
      with (let (r, d') := hw_status f (dev w) in
            if r then (Some O, d')
            else let (k, d'') := poll_until f (S n) d' in (option_map S k, d'')).
    rewrite E. destruct r.
    + exists w1. repeat split; try apply Hs; auto.
    + destruct (Z.eqb_spec (Z.of_nat (S n)) 0) as [E0|_]; [lia|].
      replace (u32 (Z.of_nat (S n) - 1)) with (Z.of_nat n)
        by (rewrite u32_small; lia).
      destruct (IH fuel w1) as (w' & Hr & Ht' & Hd' & Hs'); [lia|lia|].
      rewrite Hd in Hr, Ht', Hd'.
      destruct (poll_until f (S n) d1) as [k d2].
      exists w'. cbn [fst snd] in *.
      split; [destruct k; exact Hr|]. split.
      * rewrite Ht', Ht, <- app_assoc. destruct k; reflexivity.
      * split; [exact Hd'|]. eapply same_software_trans; eassumption.
Qed.

(** X1.  The waits for transmit-ready and for receive-ready give up exactly
    when the peripheral keeps the flag down through the first [SPI_TIMEOUT]
    polls; a flag raised at the last of those polls is still accepted.
    They poll and do nothing else: RAM, the lock and the other statics stay
    as they are. *)
Theorem ready_waits_boundary fuel w :
  (budget <= fuel)%nat ->
  (exists w',
     waitForTxReady fuel w
       = Ret (gave_up (fst (poll_until TxReady budget (dev w)))) w' /\
     trace w' = trace w
                ++ wait_events TxReady budget
                     (fst (poll_until TxReady budget (dev w))) /\
     dev w' = snd (poll_until TxReady budget (dev w)) /\
     same_software w w') /\
  (exists w',
     waitForRxReady fuel w
       = Ret (gave_up (fst (poll_until RxReady budget (dev w)))) w' /\
     trace w' = trace w
                ++ wait_events RxReady budget
                     (fst (poll_until RxReady budget (dev w))) /\
     dev w' = snd (poll_until RxReady budget (dev w)) /\
     same_software w w').
Proof.
  intros Hfuel. unfold waitForTxReady, waitForRxReady.
  destruct budget_succ as (n & Hn & HZ). pose proof SPI_TIMEOUT_range as Hr.
  rewrite Hn in *. rewrite HZ in *.
  split; apply wait_predec_answers; lia.
Qed.

(** X2.  The wait for transmit-empty tests its counter before decrementing
    it, so it allows one poll more: it gives up exactly when the flag stays
    down through the first [SPI_TIMEOUT + 1] polls. *)
Theorem empty_wait_boundary fuel w :
  (S budget <= fuel)%nat ->
  exists w',
    waitForTxEmpty fuel w
      = Ret (gave_up (fst (poll_until TxEmpty (S budget) (dev w)))) w' /\
    trace w' = trace w
               ++ wait_events TxEmpty (S budget)
                    (fst (poll_until TxEmpty (S budget) (dev w))) /\
    dev w' = snd (poll_until TxEmpty (S budget) (dev w)) /\
    same_software w w'.
Proof.
  intros Hfuel. unfold waitForTxEmpty.
  pose proof budget_Z as HZ. pose proof SPI_TIMEOUT_range as Hr.
  rewrite <- HZ in *.
  apply wait_postdec_answers; lia.
Qed.

(** ** Bring-up *)

(** X3.  The hardware bring-up of [sspi_master_init] runs on the first call
    only.  A call that finds the bring-up pending accesses the hardware and
    clears the flag; a call that finds it cleared accesses no hardware at
    all.  So every call after the first leaves trace and peripheral as they
    are, and still stores the word-width setting in the device structure it
    is handed. *)
Theorem master_init_once b K device bits_req w :
  exists d1 w1 t,
    sspi_master_init b K device bits_req w = Ret d1 w1 /\
    trace w1 = trace w ++ t /\
    init_comms w1 = false /\
    (init_comms w = false -> t = [] /\ dev w1 = dev w) /\
    (init_comms w = true -> t <> []) /\
    (forall device' bits_req', exists d2 w2,
       sspi_master_init b K device' bits_req' w1 = Ret d2 w2 /\
       trace w2 = trace w1 /\ dev w2 = dev w1 /\ init_comms w2 = false /\
       bits d2 = (if SAM4E b then US_MR_CHRL_8_BIT K
                  else if bits_req' =? 16 then SPI_CSR_BITS_16_BIT K
                       else SPI_CSR_BITS_8_BIT K)).
Proof.
  assert (Hidle : forall dv bq w0, init_comms w0 = false ->
            exists d2 w2,
              sspi_master_init b K dv bq w0 = Ret d2 w2 /\
              trace w2 = trace w0 /\ dev w2 = dev w0 /\
              init_comms w2 = false /\
              bits d2 = (if SAM4E b then US_MR_CHRL_8_BIT K
                         else if bq =? 16 then SPI_CSR_BITS_16_BIT K
                              else SPI_CSR_BITS_8_BIT K)).
  { intros dv bq w0 E0. unfold sspi_master_init.
    rewrite (bind_Ret _ _ _ _ _ (eq_refl : get_init_comms w0 = Ret _ w0)).
    rewrite E0. eexists. exists w0. split; [reflexivity|].
    split; [reflexivity|]. split; [reflexivity|]. split; [exact E0|].
    destruct (SAM4E b); [reflexivity|]. destruct (bq =? 16); reflexivity. }
  assert (Hfirst : init_comms w = true ->
            exists d1 w1 t,
              sspi_master_init b K device bits_req w = Ret d1 w1 /\
              trace w1 = trace w ++ t /\
              init_comms w1 = false /\
              t <> []).
  { intros E. unfold sspi_master_init.
    rewrite (bind_Ret _ _ _ _ _ (eq_refl : get_init_comms w = Ret _ w)).
    rewrite E.
    destruct (SAM4E b); [|destruct (USE_SAM3X_DMAC b)];
      (eexists; eexists; eexists;
       split; [symbolic_run; reflexivity|];
       split; [cbv [trace]; rewrite <- !app_assoc; reflexivity|];
       split; [reflexivity|]; discriminate). }
  destruct (init_comms w) eqn:E.
  - destruct (Hfirst eq_refl) as (d1 & w1 & t & H & Ht & Hi & Hne).
    exists d1, w1, t. split; [exact H|]. split; [exact Ht|].
    split; [exact Hi|]. split; [discriminate|]. split; [intros _; exact Hne|].
    intros dv bq. apply Hidle. exact Hi.
  - destruct (Hidle device bits_req w E) as (d2 & w2 & H2 & Ht2 & Hd2 & Hi2 & _).
    exists d2, w2, []. split; [exact H2|].
    split; [rewrite app_nil_r; exact Ht2|]. split; [exact Hi2|].
    split; [intros _; split; [reflexivity|exact Hd2]|].
    split; [discriminate|].
    intros dv bq. apply Hidle. exact Hi2.
Qed.

(** ** Bus lock *)

(** X4.  [sspi_acquire] and [sspi_release] touch nothing but the lock flag:
    no hardware is accessed, RAM and the bring-up flag stay as they are,
    and the interrupt mask is put back as it was found.  After any
    [sspi_acquire], successful or not, a further one fails; after any
    [sspi_release], by the holder or not, the next one succeeds. *)
Theorem lock_frame w :
  (exists r w1,
     sspi_acquire w = Ret r w1 /\
     trace w1 = trace w /\ dev w1 = dev w /\ mem w1 = mem w /\
     init_comms w1 = init_comms w /\ irq_enabled w1 = irq_enabled w /\
     SystemCoreClock w1 = SystemCoreClock w /\
     sspi_acquire w1 = Ret false w1) /\
  (exists w1 w2,
     sspi_release w = Ret tt w1 /\
     trace w1 = trace w /\ dev w1 = dev w /\ mem w1 = mem w /\
     init_comms w1 = init_comms w /\ irq_enabled w1 = irq_enabled w /\
     SystemCoreClock w1 = SystemCoreClock w /\
     sspi_acquire w1 = Ret true w2).
Proof.
  split.
  - eexists. eexists. split; [apply sspi_acquire_eq|].
    repeat (split; [reflexivity|]). rewrite sspi_acquire_eq. reflexivity.
  - eexists. eexists. split; [reflexivity|].
    repeat (split; [reflexivity|]). rewrite sspi_acquire_eq. reflexivity.
Qed.

(** ** Device setup *)

Lemma land_1_mod2 m : Z.land m 1 = m mod 2.
Proof. change 1 with (Z.ones 1) at 1. rewrite Z.land_ones by lia. reflexivity. Qed.

Lemma lxor_low_bit m : Z.lxor (Z.land m 1) 1 = 1 - m mod 2.
Proof.
  rewrite land_1_mod2.
  pose proof (Z.mod_pos_bound m 2 ltac:(lia)) as Hb.
  assert (Hc : m mod 2 = 0 \/ m mod 2 = 1) by lia.
  destruct Hc as [-> | ->]; reflexivity.
Qed.

(** X5.  Which bits of [spiMode] reach the hardware.  On the USART build
    only the two low bits count: a mode and the mode masked with 3 set the
    device up alike.  On the other builds the mode is not masked: the
    polarity handed over is [spiMode >> 1], which exceeds 1 from mode 4
    on, and the phase is the inverted low bit. *)
Theorem setup_device_mode_bits b K device spiMode baud_rate w :
  0 <= spiMode ->
  baud_rate <> 0 ->
  (SAM4E b = true ->
   sspi_master_setup_device b K device spiMode baud_rate w
   = sspi_master_setup_device b K device (Z.land spiMode 3) baud_rate w) /\
  (SAM4E b = false ->
   exists w' t,
     sspi_master_setup_device b K device spiMode baud_rate w = Ret tt w' /\
     trace w' = trace w ++ t /\
     last_of (clock_polarity_of K) t = Some (spiMode / 2) /\
     last_of (clock_phase_of K) t = Some (1 - spiMode mod 2)).
Proof.
  intros Hmode Hbaud. split; intros Hb.
  - unfold sspi_master_setup_device. rewrite Hb.
    rewrite <- !Z.land_assoc. reflexivity.
  - destruct (setup_device_trace b K device spiMode baud_rate w Hbaud)
      as (w' & H & Ht).
    rewrite Hb in Ht.
    eexists. eexists. split; [exact H|]. split; [exact Ht|].
    cbn [last_of fold_left clock_polarity_of clock_phase_of].
    rewrite lxor_low_bit, Z.shiftr_div_pow2 by lia.
    split; reflexivity.
Qed.

(** X6.  On the USART build [sspi_master_setup_device] divides the core
    clock by the baud rate with no guard: a zero rate is a division by
    zero, reached after the transmitter and receiver have been reset and
    the mode register written.  With any other rate the call returns, and
    leaves RAM, the lock and the other statics as they were. *)
Theorem setup_device_zero_rate b K device spiMode baud_rate w :
  SAM4E b = true ->
  (baud_rate = 0 ->
   sspi_master_setup_device b K device spiMode baud_rate w = Undefined) /\
  (baud_rate <> 0 ->
   exists w',
     sspi_master_setup_device b K device spiMode baud_rate w = Ret tt w' /\
     same_software w w').
Proof.
  intros Hb. split.
  - intros ->. unfold sspi_master_setup_device. rewrite Hb. reflexivity.
  - intros Hbaud. apply Z.eqb_neq in Hbaud.
    unfold sspi_master_setup_device. rewrite Hb.
    symbolic_run. rewrite Hbaud.
    eexists. split; [reflexivity|]. repeat split.
Qed.

(** ** What a transfer sends, receives and stores *)

Lemma data_reads_app b t1 t2 :
  data_reads b (t1 ++ t2) = data_reads b t1 ++ data_reads b t2.
Proof.
  induction t1 as [|e t1 IH]; [reflexivity|].
  destruct e as [| | r v |]; cbn; try exact IH.
  destruct r, (SAM4E b); cbn; rewrite ?IH; reflexivity.
Qed.

Lemma data_reads_rdr b v t :
  data_reads b (EvRead (rdr b) v :: t) = v :: data_reads b t.
Proof. unfold rdr. cbn. destruct (SAM4E b); reflexivity. Qed.

Lemma only_polls_data_reads b t : only_polls t -> data_reads b t = [].
Proof.
  induction 1 as [|e t He _ IH]; [reflexivity|].
  destruct e; try discriminate. cbn. exact IH.
Qed.

Lemma wait_trace_data_reads b f n r t :
  wait_trace f n r t -> data_reads b t = [].
Proof.
  intros H. apply only_polls_data_reads.
  apply (wait_trace_polls _ _ _ _ H).
Qed.

Lemma step_trace_done_reads b word v t :
  step_trace b word (Some v) t -> data_reads b t = [v].
Proof.
  intros H. inversion H as [t1 t2 v' H1 H2 Hv Ht| |]; subst.
  rewrite data_reads_app, (wait_trace_data_reads b _ _ _ _ H1).
  cbn [app data_reads].
  rewrite data_reads_app, (wait_trace_data_reads b _ _ _ _ H2).
  cbn [app]. rewrite data_reads_rdr. reflexivity.
Qed.

Lemma step_trace_abort_reads b word t :
  step_trace b word None t -> data_reads b t = [].
Proof.
  intros H. inversion H as [|t1 H1|t1 t2 H1 H2]; subst.
  - apply (wait_trace_data_reads b _ _ _ _ H1).
  - rewrite data_reads_app, (wait_trace_data_reads b _ _ _ _ H1).
    cbn [app data_reads]. apply (wait_trace_data_reads b _ _ _ _ H2).
Qed.

Lemma run_trace_counts b K tx_data rx_data len i n m s t m' :
  run_trace b K tx_data rx_data len i n m s t m' ->
  length (data_reads b t) = steps_completed t /\
  (s = SPI_OK -> length (data_writes b t) = n) /\
  (steps_completed t <= length (data_writes b t) <= S (steps_completed t))%nat /\
  (s = SPI_OK -> length (data_writes b t) = steps_completed t).
Proof.
  induction 1 as [i m|i n m m' v t ts s Hstep Hrun IH|i n m t Hstep].
  - repeat split; cbn; lia.
  - pose proof (step_trace_done_reads _ _ _ _ Hstep) as R.
    apply step_trace_done in Hstep. destruct Hstep as (C & _ & W).
    destruct IH as (I1 & I2 & I3 & I4).
    rewrite data_reads_app, data_writes_app, steps_completed_app, !length_app.
    rewrite R, W, C. cbn [length].
    repeat split; try intros Hs; try specialize (I2 Hs);
      try specialize (I4 Hs); lia.
  - pose proof (step_trace_abort_reads _ _ _ Hstep) as R.
    apply step_trace_abort in Hstep. destruct Hstep as (C & _ & W).
    rewrite R, C.
    repeat split; try discriminate; destruct W as [-> | ->]; cbn; lia.
Qed.

Lemma run_trace_stored b K tx_data rx_data len i n m s t m' :
  run_trace b K tx_data rx_data len i n m s t m' ->
  forall q j, rx_data = Some q -> (j < steps_completed t)%nat ->
    m' (q + Z.of_nat (i + j)) = u8 (nth j (data_reads b t) 0).
Proof.
  induction 1 as [i m|i n m m' v t ts s Hstep Hrun IH|i n m t Hstep];
    intros q j Hq Hj.
  - cbn in Hj. lia.
  - pose proof (step_trace_done_reads _ _ _ _ Hstep) as R.
    apply step_trace_done in Hstep. destruct Hstep as (C & _ & _).
    rewrite steps_completed_app, C in Hj.
    rewrite data_reads_app, R. cbn [app].
    destruct j as [|j].
    + cbn [nth]. rewrite Nat.add_0_r.
      rewrite (run_trace_frame _ _ _ _ _ _ _ _ _ _ _ Hrun).
      * unfold incoming. rewrite Hq. unfold mem_store.
        rewrite Z.eqb_refl. reflexivity.
      * intros q' j' Hq' Hj'. rewrite Hq in Hq'. injection Hq' as <-. lia.
    + cbn [nth]. replace (i + S j)%nat with (S i + j)%nat by lia.
      apply IH; [exact Hq|lia].
  - apply step_trace_abort in Hstep. destruct Hstep as (C & _ & _). lia.
Qed.

(** X7.  Each pass of a transfer writes the transmit register once and
    then reads the receive register once.  A call that returns [SPI_OK]
    has made exactly [len] writes and [len] reads; one that timed out has
    made as many writes as reads, or one write more, the word whose
    answer never came. *)
Theorem transceive_writes_and_reads b K fuel tx_data rx_data len w :
  (budget <= fuel)%nat ->
  exists s w' t,
    sspi_transceive_packet b K fuel tx_data rx_data len w = Ret s w' /\
    trace w' = trace w ++ t /\
    (s = SPI_OK ->
     length (data_writes b t) = len /\ length (data_reads b t) = len) /\
    (s = SPI_ERROR_TIMEOUT ->
     (length (data_reads b t) < len)%nat /\
     (length (data_reads b t) <= length (data_writes b t)
      <= S (length (data_reads b t)))%nat).
Proof.
  intros Hfuel. unfold sspi_transceive_packet.
  destruct (transceive_loop_spec b K fuel tx_data rx_data len Hfuel len 0%nat w)
    as (s & w' & t & H & Ht & _ & _ & Hrun).
  pose proof (run_trace_counts _ _ _ _ _ _ _ _ _ _ _ Hrun) as (R & W & B & E).
  pose proof (run_trace_status _ _ _ _ _ _ _ _ _ _ _ Hrun) as Hstat.
  exists s, w', t. split; [exact H|]. split; [exact Ht|]. split.
  - intros Hs. specialize (W Hs). specialize (E Hs). split; lia.
  - intros Hs. destruct Hstat as [(Hok & _)|(_ & Hlt)]; [congruence|].
    rewrite R. split; [exact Hlt|exact B].
Qed.

(** X8.  What a transfer stores: with an incoming buffer, entry [j] of it
    holds, for every completed pass [j], the low byte of the [j]-th value
    read from the receive register, also after a time-out in a later
    pass. *)
Theorem transceive_stores_received b K fuel tx_data q len w :
  (budget <= fuel)%nat ->
  exists s w' t,
    sspi_transceive_packet b K fuel tx_data (Some q) len w = Ret s w' /\
    trace w' = trace w ++ t /\
    (length (data_reads b t) <= len)%nat /\
    (s = SPI_OK -> length (data_reads b t) = len) /\
    forall j, (j < length (data_reads b t))%nat ->
      mem w' (q + Z.of_nat j) = u8 (nth j (data_reads b t) 0).
Proof.
  intros Hfuel. unfold sspi_transceive_packet.
  destruct (transceive_loop_spec b K fuel tx_data (Some q) len Hfuel len 0%nat w)
    as (s & w' & t & H & Ht & _ & _ & Hrun).
  pose proof (run_trace_counts _ _ _ _ _ _ _ _ _ _ _ Hrun) as (R & _ & _ & _).
  pose proof (run_trace_status _ _ _ _ _ _ _ _ _ _ _ Hrun) as Hstat.
  exists s, w', t. split; [exact H|]. split; [exact Ht|].
  split; [destruct Hstat as [(_ & E)|(_ & E)]; lia|].
  split; [intros Hs; destruct Hstat as [(_ & E)|(Hx & _)]; [lia|congruence]|].
  intros j Hj. rewrite R in Hj.
  apply (run_trace_stored _ _ _ _ _ _ _ _ _ _ _ Hrun q j eq_refl Hj).
Qed.

(** X9.  With no incoming buffer the received words are read and
    dropped: the call leaves all of RAM as it was, whatever its outcome,
    and still reads the receive register once per completed pass. *)
Theorem transceive_discards_without_buffer b K fuel tx_data len w :
  (budget <= fuel)%nat ->
  exists s w' t,
    sspi_transceive_packet b K fuel tx_data None len w = Ret s w' /\
    trace w' = trace w ++ t /\
    (forall a, mem w' a = mem w a) /\
    (s = SPI_OK -> length (data_reads b t) = len).
Proof.
  intros Hfuel. unfold sspi_transceive_packet.
  destruct (transceive_loop_spec b K fuel tx_data None len Hfuel len 0%nat w)
    as (s & w' & t & H & Ht & _ & _ & Hrun).
  pose proof (run_trace_counts _ _ _ _ _ _ _ _ _ _ _ Hrun) as (R & _ & _ & _).
  pose proof (run_trace_status _ _ _ _ _ _ _ _ _ _ _ Hrun) as Hstat.
  exists s, w', t. split; [exact H|]. split; [exact Ht|]. split.
  - intros a. apply (run_trace_frame _ _ _ _ _ _ _ _ _ _ _ Hrun).
    intros q j Hq. discriminate.
  - intros Hs. destruct Hstat as [(_ & E)|(Hx & _)]; [lia|congruence].
Qed.

(** ** The words a transfer sends, tied to the peripheral *)

Lemma waitForTxReady_answers fuel w :
  (budget <= fuel)%nat ->
  exists w',
    waitForTxReady fuel w
      = Ret (gave_up (fst (poll_until TxReady budget (dev w)))) w' /\
    trace w' = trace w
               ++ wait_events TxReady budget
                    (fst (poll_until TxReady budget (dev w))) /\
    same_software w w'.
Proof.
  intros Hfuel. unfold waitForTxReady.
  destruct budget_succ as (n & Hn & HZ). pose proof SPI_TIMEOUT_range as Hr.
  rewrite Hn in *. rewrite HZ in *.
  destruct (wait_predec_answers TxReady n fuel w) as (w' & H & Ht & _ & Hs);
    [lia|lia|].
  exists w'. repeat split; try apply Hs; assumption.
Qed.

Lemma wait_events_polls f n k : only_polls (wait_events f n k).
Proof.
  destruct k as [j|]; cbn [wait_events].
  - apply Forall_app. split; [apply only_polls_repeat|].
    constructor; [reflexivity|constructor].
  - apply only_polls_repeat.
Qed.

(** A pass writes its word exactly when the peripheral raises
    transmit-ready within the budget. *)
Lemma transceive_step_writes b K fuel tx_data rx_data len i w :
  (budget <= fuel)%nat ->
  exists r w1 t,
    transceive_step b K fuel tx_data rx_data len i w = Ret r w1 /\
    trace w1 = trace w ++ t /\
    match fst (poll_until TxReady budget (dev w)) with
    | Some _ => data_writes b t = [outgoing_word K tx_data len i (mem w)]
    | None => r = Some SPI_ERROR_TIMEOUT /\ data_writes b t = []
    end.
Proof.
  intros Hfuel. unfold transceive_step.
  destruct (waitForTxReady_answers fuel w Hfuel) as (w1 & H1 & Ht1 & Hs1).
  rewrite (bind_Ret _ _ _ _ _ H1); cbv beta.
  pose proof (wait_events_polls TxReady budget
                (fst (poll_until TxReady budget (dev w)))) as Hp1.
  destruct (fst (poll_until TxReady budget (dev w))) as [k1|];
    cbn [gave_up]; cbv iota.
  2:{ eexists. exists w1. eexists. split; [reflexivity|]. split; [exact Ht1|].
      split; [reflexivity|]. apply only_polls_writes. exact Hp1. }
  set (t1 := wait_events TxReady budget (Some k1)) in *.
  assert (Hm1 : mem w1 = mem w) by apply Hs1.
  assert (Hd : (match tx_data with
                | None => ret 255
                | Some p => load8 (p + Z.of_nat i)
                end) w1
               = Ret (match tx_data with
                      | None => 255
                      | Some p => u8 (mem w (p + Z.of_nat i))
                      end) w1).
  { destruct tx_data; [unfold load8; rewrite Hm1|]; reflexivity. }
  rewrite (bind_Ret _ _ _ _ _ Hd); cbv beta zeta.
  fold (outgoing_word K tx_data len i (mem w)).
  set (word := outgoing_word K tx_data len i (mem w)).
  destruct (reg_write_spec (tdr b) word w1) as (w2 & H2 & Ht2 & Hs2).
  rewrite (bind_Ret _ _ _ _ _ H2); cbv beta.
  destruct (waitForRxReady_spec fuel w2 Hfuel)
    as (r3 & w3 & t3 & H3 & Ht3 & Hw3 & _ & Hs3).
  rewrite (bind_Ret _ _ _ _ _ H3); cbv beta.
  destruct (wait_trace_polls _ _ _ _ Hw3) as [Hp3 _].
  destruct r3.
  { exists (Some SPI_ERROR_TIMEOUT), w3, (t1 ++ EvWrite (tdr b) word :: t3).
    split; [reflexivity|]. split.
    { rewrite Ht3, Ht2, Ht1, <- !app_assoc. reflexivity. }
    rewrite data_writes_app, data_writes_tdr.
    rewrite (only_polls_writes b t1 Hp1), (only_polls_writes b t3 Hp3).
    reflexivity. }
  destruct (reg_read_spec (rdr b) w3) as (v & w4 & H4 & Ht4 & Hs4).
  rewrite (bind_Ret _ _ _ _ _ H4); cbv beta zeta.
  exists None.
  exists (match rx_data with
          | None => w4
          | Some q =>
              mkWorld (sspiLocked w4) (init_comms w4) (irq_enabled w4)
                      (SystemCoreClock w4)
                      (mem_store (mem w4) (q + Z.of_nat i) (u8 v))
                      (dev w4) (trace w4)
          end).
  exists (t1 ++ EvWrite (tdr b) word :: t3 ++ [EvRead (rdr b) v]).
  split; [destruct rx_data; reflexivity|]. split.
  { replace (trace match rx_data with
                   | None => w4
                   | Some q => _
                   end) with (trace w4) by (destruct rx_data; reflexivity).
    rewrite Ht4, Ht3, Ht2, Ht1, <- !app_assoc. reflexivity. }
  rewrite data_writes_app, data_writes_tdr, data_writes_app.
  rewrite (only_polls_writes b t1 Hp1), (only_polls_writes b t3 Hp3).
  reflexivity.
Qed.

(** Against a peripheral that raises a flag at every poll, no wait on that
    flag gives up. *)
Lemma wait_trace_always f n r t :
  Forall genuine t ->
  (forall d : D, fst (hw_status f d) = true) ->
  (0 < n)%nat ->
  wait_trace f n r t -> r = false.
Proof.
  intros Hg Hup Hn Hw. revert Hg.
  destruct Hw as [k Hk|]; intros Hg; [reflexivity|].
  destruct n as [|n]; [lia|]. cbn [repeat] in Hg.
  inversion Hg as [|e l He _]; subst.
  cbn in He. destruct He as [d Hd].
  rewrite Hup in Hd. discriminate.
Qed.

Lemma step_trace_responsive b word t :
  step_trace b word None t ->
  Forall genuine t ->
  (forall d : D, fst (hw_status TxReady d) = true) ->
  (forall d : D, fst (hw_status RxReady d) = true) ->
  False.
Proof.
  intros Hstep Hg Htx Hrx.
  assert (Hpos : (0 < budget)%nat).
  { destruct budget_succ as (n & Hn & _). lia. }
  inversion Hstep as [|t1 H1|t1 t2 H1 H2]; subst.
  - pose proof (wait_trace_always _ _ _ _ Hg Htx Hpos H1). discriminate.
  - apply Forall_app in Hg. destruct Hg as [_ Hg].
    inversion Hg as [|e l _ Hg2]; subst.
    pose proof (wait_trace_always _ _ _ _ Hg2 Hrx Hpos H2). discriminate.
Qed.

Lemma step_trace_dead b word v t :
  step_trace b word (Some v) t ->
  Forall genuine t ->
  (forall d : D, fst (hw_status TxReady d) = false) \/
  (forall d : D, fst (hw_status RxReady d) = false) ->
  False.
Proof.
  intros Hstep Hg Hdead.
  inversion Hstep as [ta tb v' Ha Hb| |]; subst.
  apply Forall_app in Hg. destruct Hg as [Hga Hg].
  inversion Hg as [|e l _ Hg']; subst.
  apply Forall_app in Hg'. destruct Hg' as [Hgb _].
  destruct Hdead as [Hd|Hd].
  - pose proof (wait_trace_never _ _ _ _ Hga Hd Ha). discriminate.
  - pose proof (wait_trace_never _ _ _ _ Hgb Hd Hb). discriminate.
Qed.

Lemma run_trace_responsive b K tx_data rx_data len i n m s t m' :
  run_trace b K tx_data rx_data len i n m s t m' ->
  Forall genuine t ->
  (forall d : D, fst (hw_status TxReady d) = true) ->
  (forall d : D, fst (hw_status RxReady d) = true) ->
  s = SPI_OK.
Proof.
  intros Hrun Hg Htx Hrx. revert Hg.
  induction Hrun as [i m|i n m m' v t ts s Hstep Hrun IH|i n m t Hstep];
    intros Hg.
  - reflexivity.
  - apply Forall_app in Hg. apply IH. apply Hg.
  - exfalso. eapply step_trace_responsive; eassumption.
Qed.

(** C5.  In pass [i] of a transfer of [len] bytes, whenever the peripheral
    raises transmit-ready within the budget, exactly one word is written
    to the transmit register: the byte at index [i] of the outgoing
    buffer, or 0xFF when there is no outgoing buffer, with the
    last-transfer marker or-ed in exactly when [i + 1 = len]; only when
    the peripheral keeps transmit-ready down through the whole budget does
    the pass write nothing, and it then returns [SPI_ERROR_TIMEOUT].  A
    whole call has the specified shape, its polls being answers of the
    peripheral, and the words it writes are those of passes 0, 1, ... in
    order: one for every completed pass, all [len] of them when the call
    returns [SPI_OK], which it does whenever the peripheral raises both
    flags at every poll. *)
Theorem transceive_outgoing_words b K fuel tx_data rx_data len w :
  (budget <= fuel)%nat ->
  Z.of_nat len < 2 ^ 32 ->
  (forall i w0, (i < len)%nat ->
     exists r w1 t,
       transceive_step b K fuel tx_data rx_data len i w0 = Ret r w1 /\
       trace w1 = trace w0 ++ t /\
       match fst (poll_until TxReady budget (dev w0)) with
       | Some _ => data_writes b t = [tx_word K tx_data len (mem w0) i]
       | None => r = Some SPI_ERROR_TIMEOUT /\ data_writes b t = []
       end) /\
  (hazard_free tx_data rx_data len ->
   exists s w' t k,
     sspi_transceive_packet b K fuel tx_data rx_data len w = Ret s w' /\
     trace w' = trace w ++ t /\
     run_trace b K tx_data rx_data len 0 len (mem w) s t (mem w') /\
     Forall genuine t /\
     (steps_completed t <= k <= len)%nat /\
     data_writes b t = map (tx_word K tx_data len (mem w)) (seq 0 k) /\
     (s = SPI_OK -> k = len) /\
     ((forall d : D, fst (hw_status TxReady d) = true) ->
      (forall d : D, fst (hw_status RxReady d) = true) ->
      s = SPI_OK)).
Proof.
  intros Hfuel Hlen. split.
  - intros i w0 Hi.
    destruct (transceive_step_writes b K fuel tx_data rx_data len i w0 Hfuel)
      as (r & w1 & t & H & Ht & Hcase).
    exists r, w1, t. split; [exact H|]. split; [exact Ht|].
    rewrite <- (outgoing_word_tx_word K tx_data len i (mem w0) Hlen Hi).
    exact Hcase.
  - intros Hz. unfold sspi_transceive_packet.
    destruct (transceive_loop_spec b K fuel tx_data rx_data len Hfuel len 0%nat w)
      as (s & w' & t & H & Ht & Hg & _ & Hrun).
    destruct (run_trace_writes _ _ _ _ _ _ _ _ _ _ _ Hrun (mem w))
      as (k & Hk & Hw & Hok); auto.
    pose proof (run_trace_counts _ _ _ _ _ _ _ _ _ _ _ Hrun) as (_ & _ & B & _).
    rewrite Hw, length_map, length_seq in B.
    exists s, w', t, k. split; [exact H|]. split; [exact Ht|].
    split; [exact Hrun|]. split; [exact Hg|]. split; [lia|].
    split; [exact Hw|]. split; [exact Hok|].
    intros Htx Hrx. eapply run_trace_responsive; eassumption.
Qed.

(** A wait whose flag is up at the first poll. *)
Lemma wait_ready_now f fuel timeout w d1 :
  hw_status f (dev w) = (true, d1) ->
  exists w1,
    wait_predec f (S fuel) timeout w = Ret false w1 /\
    trace w1 = trace w ++ [EvPoll f true] /\
    dev w1 = d1 /\
    same_software w w1.
Proof.
  intros E. rewrite wait_predec_unfold.
  destruct (poll_answer f w true d1 E) as (w1 & Hp & Ht & Hd & Hs).
  rewrite Hp. exists w1. repeat split; try apply Hs; assumption.
Qed.

Lemma u8_marked K d :
  marker_above_byte K = true -> 0 <= d < 256 ->
  u8 (Z.lor d (SPI_TDR_LASTXFER K)) = d.
Proof.
  unfold marker_above_byte. intros HK Hd. apply Z.eqb_eq in HK.
  unfold u8. change (2 ^ 8) with (2 ^ 8)%Z.
  rewrite <- Z.land_ones by lia. change (Z.ones 8) with 255.
  rewrite Z.land_lor_distr_l, HK, Z.lor_0_r.
  change 255 with (Z.ones 8). rewrite Z.land_ones by lia.
  apply Z.mod_small. lia.
Qed.

Lemma u8_twice x : u8 (u8 x) = u8 x.
Proof. unfold u8. apply Z.mod_mod. lia. Qed.

Lemma u8_range x : 0 <= u8 x < 256.
Proof. unfold u8. apply Z.mod_pos_bound. lia. Qed.

Lemma u8_outgoing_word K tx_data len i m :
  marker_above_byte K = true ->
  u8 (outgoing_word K tx_data len i m)
  = match tx_data with
    | None => 0xFF
    | Some p => u8 (m (p + Z.of_nat i))
    end.
Proof.
  intros HK. unfold outgoing_word.
  assert (Hd : 0 <= match tx_data with
                    | None => 0xFF
                    | Some p => u8 (m (p + Z.of_nat i))
                    end < 256).
  { destruct tx_data; [apply u8_range|lia]. }
  destruct (u32 (Z.of_nat i + 1) =? Z.of_nat len).
  - apply u8_marked; assumption.
  - unfold u8 at 1. apply Z.mod_small. exact Hd.
Qed.

End MoreProperties.

(** ** The transfer against the loopback *)

Lemma loopback_step b K fuel tx_data rx_data len i (w : world loopback) :
  (0 < fuel)%nat ->
  exists w',
    transceive_step b K fuel tx_data rx_data len i w = Ret None w' /\
    mem w' = incoming rx_data i (u8 (outgoing_word K tx_data len i (mem w)))
               (mem w).
Proof.
  intros Hfuel. destruct fuel as [|fuel]; [lia|].
  unfold transceive_step, waitForTxReady, waitForRxReady.
  assert (E1 : hw_status TxReady (dev w) = (true, dev w)) by reflexivity.
  destruct (wait_ready_now TxReady fuel SPI_TIMEOUT w (dev w) E1)
    as (w1 & H1 & _ & Hd1 & Hs1).
  rewrite (bind_Ret _ _ _ _ _ H1); cbv beta.
  assert (Hm1 : mem w1 = mem w) by apply Hs1.
  assert (Hd : (match tx_data with
                | None => ret 255
                | Some p => load8 (p + Z.of_nat i)
                end) w1
               = Ret (match tx_data with
                      | None => 255
                      | Some p => u8 (mem w (p + Z.of_nat i))
                      end) w1).
  { destruct tx_data; [unfold load8; rewrite Hm1|]; reflexivity. }
  rewrite (bind_Ret _ _ _ _ _ Hd); cbv beta zeta.
  fold (outgoing_word K tx_data len i (mem w)).
  set (word := outgoing_word K tx_data len i (mem w)).
  set (w2 := mkWorld (sspiLocked w1) (init_comms w1) (irq_enabled w1)
                     (SystemCoreClock w1) (mem w1)
                     (hw_write (tdr b) word (dev w1))
                     (trace w1 ++ [EvWrite (tdr b) word])).
  rewrite (bind_Ret _ _ _ _ _ (eq_refl : reg_write (tdr b) word w1 = Ret tt w2));
    cbv beta.
  assert (Hd2 : dev w2 = mkLoopback (u8 word)).
  { unfold w2, tdr. cbn [dev]. destruct (SAM4E b); reflexivity. }
  assert (E3 : hw_status RxReady (dev w2) = (true, dev w2)) by reflexivity.
  destruct (wait_ready_now RxReady fuel SPI_TIMEOUT w2 (dev w2) E3)
    as (w3 & H3 & _ & Hd3 & Hs3).
  rewrite (bind_Ret _ _ _ _ _ H3); cbv beta.
  assert (Hm3 : mem w3 = mem w).
  { destruct Hs3 as (_ & _ & _ & _ & G). rewrite G. exact Hm1. }
  assert (H4 : exists w4,
            reg_read (rdr b) w3 = Ret (u8 word) w4 /\ mem w4 = mem w3).
  { unfold reg_read, rdr. rewrite Hd3, Hd2.
    destruct (SAM4E b); cbn; eexists; split; reflexivity. }
  destruct H4 as (w4 & H4 & Hm4).
  rewrite (bind_Ret _ _ _ _ _ H4); cbv beta zeta.
  destruct rx_data as [q|].
  - eexists. split; [reflexivity|]. cbn [mem incoming].
    rewrite Hm4, Hm3. reflexivity.
  - eexists. split; [reflexivity|]. cbn [incoming].
    rewrite Hm4. exact Hm3.
Qed.

Lemma loopback_loop b K fuel tx_data rx_data len (m0 : Z -> Z) :
  (0 < fuel)%nat ->
  marker_above_byte K = true ->
  hazard_free tx_data rx_data len ->
  forall n i (w : world loopback),
    (i + n = len)%nat ->
    (forall p k, tx_data = Some p -> (i <= k < len)%nat ->
                 mem w (p + Z.of_nat k) = m0 (p + Z.of_nat k)) ->
    exists w',
      transceive_loop b K fuel tx_data rx_data len n i w = Ret SPI_OK w' /\
      (forall q j, rx_data = Some q -> (i <= j < len)%nat ->
         mem w' (q + Z.of_nat j)
         = match tx_data with
           | None => 0xFF
           | Some p => u8 (m0 (p + Z.of_nat j))
           end) /\
      (forall a, (forall q j, rx_data = Some q -> (i <= j < len)%nat ->
                              a <> q + Z.of_nat j) ->
                 mem w' a = mem w a).
Proof.
  intros Hfuel HK Hz. induction n as [|n IH]; intros i w Hin Hagree.
  - exists w. split; [reflexivity|]. split; [intros q j _ Hj; lia|].
    intros a _. reflexivity.
  - cbn [transceive_loop].
    destruct (loopback_step b K fuel tx_data rx_data len i w Hfuel)
      as (w1 & H1 & Hm1).
    rewrite (bind_Ret _ _ _ _ _ H1); cbv beta iota.
    rewrite u8_outgoing_word in Hm1 by exact HK.
    assert (Hnext : forall p k, tx_data = Some p -> (S i <= k < len)%nat ->
              mem w1 (p + Z.of_nat k) = m0 (p + Z.of_nat k)).
    { intros p k Hp Hk. rewrite Hm1. unfold incoming.
      destruct rx_data as [q|]; [|apply Hagree; [exact Hp|lia]].
      unfold mem_store.
      destruct (Z.eqb_spec (p + Z.of_nat k) (q + Z.of_nat i)) as [E|_].
      - exfalso. apply (Hz p q i k Hp eq_refl); [lia|]. symmetry. exact E.
      - apply Hagree; [exact Hp|lia]. }
    destruct (IH (S i) w1) as (w' & H2 & Hrx & Hframe); [lia|exact Hnext|].
    exists w'. split; [exact H2|]. split.
    + intros q j Hq Hj.
      destruct (Nat.eq_dec j i) as [->|Hne].
      * rewrite Hframe.
        -- rewrite Hm1. unfold incoming. rewrite Hq. unfold mem_store.
           rewrite Z.eqb_refl.
           destruct tx_data as [p|]; [|reflexivity].
           rewrite u8_twice, (Hagree p i eq_refl) by lia. reflexivity.
        -- intros q' j' Hq' Hj'. rewrite Hq in Hq'. injection Hq' as <-. lia.
      * apply Hrx; [exact Hq|lia].
    + intros a Ha. rewrite Hframe.
      * rewrite Hm1. unfold incoming. destruct rx_data as [q|]; [|reflexivity].
        unfold mem_store.
        destruct (Z.eqb_spec a (q + Z.of_nat i)) as [E|_]; [|reflexivity].
        exfalso. apply (Ha q i eq_refl); [lia|exact E].
      * intros q j Hq Hj. apply Ha; [exact Hq|lia].
Qed.

(** X10.  Round trip through a loopback: when the peripheral hands every
    word sent straight back, a transfer of any length returns [SPI_OK] and
    leaves in entry [j] of the incoming buffer the byte that entry [j] of
    the outgoing buffer held on entry, or 0xFF without an outgoing buffer.
    The last-transfer marker on the final word does not reach the stored
    byte.  The transfer may be in place. *)
Theorem loopback_round_trip b K fuel tx_data q len (w : world loopback) :
  (budget <= fuel)%nat ->
  marker_above_byte K = true ->
  hazard_free tx_data (Some q) len ->
  exists w',
    sspi_transceive_packet b K fuel tx_data (Some q) len w = Ret SPI_OK w' /\
    forall j, (j < len)%nat ->
      mem w' (q + Z.of_nat j)
      = match tx_data with
        | None => 0xFF
        | Some p => u8 (mem w (p + Z.of_nat j))
        end.
Proof.
  intros Hfuel HK Hz. unfold sspi_transceive_packet.
  assert (Hpos : (0 < fuel)%nat).
  { destruct budget_succ as (n & Hn & _). lia. }
  destruct (loopback_loop b K fuel tx_data (Some q) len (mem w) Hpos HK Hz
              len 0%nat w) as (w' & H & Hrx & _); [lia|reflexivity|].
  exists w'. split; [exact H|].
  intros j Hj. apply Hrx; [reflexivity|lia].
Qed.

Lemma loopback_round_trip_witness :
  (budget <= budget)%nat /\
  marker_above_byte sam_device_header = true /\
  hazard_free (Some 100) (Some 100) 4 /\
  exists w',
    sspi_transceive_packet usart_build sam_device_header budget
      (Some 100) (Some 100) 4 (boot (mkLoopback 0)) = Ret SPI_OK w' /\
    forall j, (j < 4)%nat ->
      mem w' (100 + Z.of_nat j) = u8 (mem (boot (mkLoopback 0)) (100 + Z.of_nat j)).
Proof.
  assert (Hz : hazard_free (Some 100) (Some 100) 4).
  { intros p q j k Hp Hq Hjk. injection Hp as <-. injection Hq as <-. lia. }
  split; [apply le_n|]. split; [reflexivity|]. split; [exact Hz|].
  apply (loopback_round_trip usart_build sam_device_header budget
           (Some 100) 100 4 (boot (mkLoopback 0)) (le_n _) eq_refl Hz).
Defined.

(** ** The 16-bit transfer *)

Section Transfer16.

Context {D : Type} {HW : SpiHw D}.

Implicit Types (w : world D) (t : list event).

Lemma transceive_step16_spec K fuel tx_data rx_data len i w :
  (budget <= fuel)%nat ->
  exists r w' t,
    transceive_step16 K fuel tx_data rx_data len i w = Ret r w' /\
    trace w' = trace w ++ t /\
    Forall genuine t /\
    same_statics w w' /\
    ((exists v, r = None /\
        step_trace native_build (outgoing_word16 K tx_data len i (mem w))
                   (Some v) t /\
        mem w' = incoming16 rx_data i v (mem w)) \/
     (r = Some SPI_ERROR_TIMEOUT /\
        step_trace native_build (outgoing_word16 K tx_data len i (mem w))
                   None t /\
        mem w' = mem w)).
Proof.
  intros Hfuel. unfold transceive_step16.
  destruct (waitForTxReady_spec fuel w Hfuel)
    as (r1 & w1 & t1 & H1 & Ht1 & Hw1 & Hg1 & Hs1).
  rewrite (bind_Ret _ _ _ _ _ H1); cbv beta.
  destruct r1.
  { exists (Some SPI_ERROR_TIMEOUT), w1, t1.
    split; [reflexivity|]. split; [exact Ht1|]. split; [exact Hg1|].
    split; [apply same_software_statics; exact Hs1|].
    right. split; [reflexivity|]. split; [|apply Hs1].
    apply step_tx_expired. exact Hw1. }
  assert (Hm1 : mem w1 = mem w) by apply Hs1.
  assert (Hd : (match tx_data with
                | None => ret 255
                | Some p => load16 (p + 2 * Z.of_nat i)
                end) w1
               = Ret (match tx_data with
                      | None => 255
                      | Some p => mem_load16 (mem w) (p + 2 * Z.of_nat i)
                      end) w1).
  { destruct tx_data; [unfold load16; rewrite Hm1|]; reflexivity. }
  rewrite (bind_Ret _ _ _ _ _ Hd); cbv beta zeta.
  fold (outgoing_word16 K tx_data len i (mem w)).
  set (word := outgoing_word16 K tx_data len i (mem w)).
  destruct (reg_write_spec SPI_TDR word w1) as (w2 & H2 & Ht2 & Hs2).
  rewrite (bind_Ret _ _ _ _ _ H2); cbv beta.
  destruct (waitForRxReady_spec fuel w2 Hfuel)
    as (r3 & w3 & t3 & H3 & Ht3 & Hw3 & Hg3 & Hs3).
  rewrite (bind_Ret _ _ _ _ _ H3); cbv beta.
  assert (Hs13 : same_software w w3).
  { eapply same_software_trans; [exact Hs1|].
    eapply same_software_trans; [exact Hs2|exact Hs3]. }
  destruct r3.
  { exists (Some SPI_ERROR_TIMEOUT), w3, (t1 ++ EvWrite SPI_TDR word :: t3).
    split; [reflexivity|]. split.
    { rewrite Ht3, Ht2, Ht1, <- !app_assoc. reflexivity. }
    split.
    { apply Forall_app. split; [exact Hg1|]. constructor; [exact I|exact Hg3]. }
    split; [apply same_software_statics; exact Hs13|].
    right. split; [reflexivity|]. split; [|apply Hs13].
    apply (step_rx_expired native_build word t1 t3); assumption. }
  destruct (reg_read_spec SPI_RDR w3) as (v & w4 & H4 & Ht4 & Hs4).
  rewrite (bind_Ret _ _ _ _ _ H4); cbv beta zeta.
  assert (Hs14 : same_software w w4).
  { eapply same_software_trans; [exact Hs13|exact Hs4]. }
  exists None.
  exists (match rx_data with
          | None => w4
          | Some q =>
              mkWorld (sspiLocked w4) (init_comms w4) (irq_enabled w4)
                      (SystemCoreClock w4)
                      (mem_store16 (mem w4) (q + 2 * Z.of_nat i) (u16 v))
                      (dev w4) (trace w4)
          end).
  exists (t1 ++ EvWrite SPI_TDR word :: t3 ++ [EvRead SPI_RDR v]).
  split.
  { destruct rx_data; reflexivity. }
  split.
  { replace (trace match rx_data with
                   | None => w4
                   | Some q => _
                   end) with (trace w4) by (destruct rx_data; reflexivity).
    rewrite Ht4, Ht3, Ht2, Ht1, <- !app_assoc. reflexivity. }
  split.
  { apply Forall_app. split; [exact Hg1|].
    constructor; [exact I|].
    apply Forall_app. split; [exact Hg3|]. constructor; [exact I|constructor]. }
  split.
  { destruct Hs14 as (G1 & G2 & G3 & G4 & G5).
    destruct rx_data; repeat split; assumption. }
  left. exists v. split; [reflexivity|]. split.
  { apply (step_done native_build word t1 t3 v); assumption. }
  destruct Hs14 as (G1 & G2 & G3 & G4 & G5).
  unfold incoming16. destruct rx_data; cbn [mem]; rewrite G5; reflexivity.
Qed.

Lemma transceive_loop16_spec K fuel tx_data rx_data len :
  (budget <= fuel)%nat ->
  forall n i w,
  exists s w' t,
    transceive_loop16 K fuel tx_data rx_data len n i w = Ret s w' /\
    trace w' = trace w ++ t /\
    Forall genuine t /\
    same_statics w w' /\
    run_trace16 K tx_data rx_data len i n (mem w) s t (mem w').
Proof.
  intros Hfuel. induction n as [|n IH]; intros i w.
  - exists SPI_OK, w, []. split; [reflexivity|].
    split; [rewrite app_nil_r; reflexivity|]. split; [constructor|].
    split; [repeat split|]. constructor.
  - cbn [transceive_loop16].
    destruct (transceive_step16_spec K fuel tx_data rx_data len i w Hfuel)
      as (r & w1 & t1 & H1 & Ht1 & Hg1 & Hs1 & Hcase).
    rewrite (bind_Ret _ _ _ _ _ H1); cbv beta.
    destruct Hcase as [(v & -> & Hstep & Hmem)|(-> & Hstep & Hmem)].
    + destruct (IH (S i) w1) as (s & w' & ts & H2 & Ht2 & Hg2 & Hs2 & Hrun).
      exists s, w', (t1 ++ ts).
      split; [exact H2|]. split; [rewrite Ht2, Ht1, app_assoc; reflexivity|].
      split; [apply Forall_app; split; assumption|].
      split; [eapply same_statics_trans; eassumption|].
      rewrite Hmem in Hrun. eapply run16_step; eassumption.
    + exists SPI_ERROR_TIMEOUT, w1, t1.
      split; [reflexivity|]. split; [exact Ht1|]. split; [exact Hg1|].
      split; [exact Hs1|].
      rewrite Hmem. apply run16_abort. exact Hstep.
Qed.

Lemma run_trace16_counts K tx_data rx_data len i n m s t m' :
  run_trace16 K tx_data rx_data len i n m s t m' ->
  ((s = SPI_OK /\ steps_completed t = n) \/
   (s = SPI_ERROR_TIMEOUT /\ (steps_completed t < n)%nat)) /\
  (poll_count t <= n * (2 * budget))%nat /\
  length (data_reads native_build t) = steps_completed t.
Proof.
  induction 1 as [i m|i n m m' v t ts s Hstep Hrun IH|i n m t Hstep].
  - split; [left; split; reflexivity|]. split; [cbn; lia|reflexivity].
  - pose proof (step_trace_done_reads _ _ _ _ Hstep) as R.
    apply step_trace_done in Hstep. destruct Hstep as (C & P & _).
    destruct IH as (I1 & I2 & I3).
    rewrite steps_completed_app, poll_count_app, data_reads_app, length_app.
    rewrite R, C, Nat.mul_succ_l. cbn [length].
    split; [|split; lia].
    destruct I1 as [(-> & E)|(-> & E)]; [left|right]; split; auto; lia.
  - pose proof (step_trace_abort_reads _ _ _ Hstep) as R.
    apply step_trace_abort in Hstep. destruct Hstep as (C & P & _).
    rewrite R, C, Nat.mul_succ_l.
    split; [right; split; [reflexivity|lia]|]. split; [lia|reflexivity].
Qed.

Lemma mem_store16_other m a v x :
  x <> a -> x <> a + 1 -> mem_store16 m a v x = m x.
Proof.
  intros H0 H1. unfold mem_store16, mem_store.
  destruct (Z.eqb_spec x (a + 1)); [contradiction|].
  destruct (Z.eqb_spec x a); [contradiction|]. reflexivity.
Qed.

Lemma mem_load16_store16 m a v :
  mem_load16 (mem_store16 m a (u16 v)) a = u16 v.
Proof.
  unfold mem_load16, mem_store16, mem_store.
  rewrite Z.eqb_refl.
  destruct (Z.eqb_spec a (a + 1)) as [E|_]; [lia|].
  rewrite Z.eqb_refl. rewrite !u8_twice.
  unfold u8, u16.
  pose proof (Z.mod_pos_bound v (2 ^ 16) ltac:(lia)) as Hb.
  set (x := v mod 2 ^ 16) in *.
  rewrite (Z.mod_small (x / 256)) by (split; [apply Z.div_pos; lia|
                                      apply Z.div_lt_upper_bound; lia]).
  change (2 ^ 8) with 256.
  pose proof (Z.div_mod x 256 ltac:(lia)). lia.
Qed.

Lemma run_trace16_frame K tx_data rx_data len i n m s t m' :
  run_trace16 K tx_data rx_data len i n m s t m' ->
  forall a,
    (forall q j, rx_data = Some q -> (i <= j < i + steps_completed t)%nat ->
                 a <> q + 2 * Z.of_nat j /\ a <> q + 2 * Z.of_nat j + 1) ->
    m' a = m a.
Proof.
  induction 1 as [i m|i n m m' v t ts s Hstep Hrun IH|i n m t Hstep];
    intros a Ha; try reflexivity.
  apply step_trace_done in Hstep. destruct Hstep as (R & _ & _).
  rewrite steps_completed_app, R in Ha.
  rewrite IH.
  - unfold incoming16. destruct rx_data as [q|]; [|reflexivity].
    destruct (Ha q i eq_refl) as [A0 A1]; [lia|].
    apply mem_store16_other; assumption.
  - intros q j Hq Hj. apply Ha; [exact Hq|lia].
Qed.

Lemma mem_load16_ext m m' a :
  m' a = m a -> m' (a + 1) = m (a + 1) -> mem_load16 m' a = mem_load16 m a.
Proof. intros H0 H1. unfold mem_load16. rewrite H0, H1. reflexivity. Qed.

Lemma run_trace16_stored K tx_data rx_data len i n m s t m' :
  run_trace16 K tx_data rx_data len i n m s t m' ->
  forall q j, rx_data = Some q -> (j < steps_completed t)%nat ->
    mem_load16 m' (q + 2 * Z.of_nat (i + j))
    = u16 (nth j (data_reads native_build t) 0).
Proof.
  induction 1 as [i m|i n m m' v t ts s Hstep Hrun IH|i n m t Hstep];
    intros q j Hq Hj.
  - cbn in Hj. lia.
  - pose proof (step_trace_done_reads _ _ _ _ Hstep) as R.
    apply step_trace_done in Hstep. destruct Hstep as (C & _ & _).
    rewrite steps_completed_app, C in Hj.
    rewrite data_reads_app, R. cbn [app].
    destruct j as [|j].
    + cbn [nth]. rewrite Nat.add_0_r.
      rewrite (mem_load16_ext (incoming16 rx_data i v m) m').
      * unfold incoming16. rewrite Hq. apply mem_load16_store16.
      * apply (run_trace16_frame _ _ _ _ _ _ _ _ _ _ Hrun).
        intros q' j' Hq' Hj'. rewrite Hq in Hq'. injection Hq' as <-. lia.
      * apply (run_trace16_frame _ _ _ _ _ _ _ _ _ _ Hrun).
        intros q' j' Hq' Hj'. rewrite Hq in Hq'. injection Hq' as <-. lia.
    + cbn [nth]. replace (i + S j)%nat with (S i + j)%nat by lia.
      apply IH; [exact Hq|lia].
  - apply step_trace_abort in Hstep. destruct Hstep as (C & _ & _). lia.
Qed.

Lemma run_trace16_dead K tx_data rx_data len i n m s t m' :
  run_trace16 K tx_data rx_data len i (S n) m s t m' ->
  Forall genuine t ->
  (forall d : D, fst (hw_status TxReady d) = false) \/
  (forall d : D, fst (hw_status RxReady d) = false) ->
  s = SPI_ERROR_TIMEOUT /\ (poll_count t <= 2 * budget)%nat.
Proof.
  intros Hrun Hg Hdead.
  inversion Hrun as [|i' n' m1 m2 v t1 ts s' Hstep Hrest|i' n' m1 t1 Hstep]; subst.
  - exfalso. apply Forall_app in Hg. destruct Hg as [Hg _].
    eapply step_trace_dead; eassumption.
  - split; [reflexivity|]. apply step_trace_abort in Hstep. tauto.
Qed.

Lemma run_trace16_responsive K tx_data rx_data len i n m s t m' :
  run_trace16 K tx_data rx_data len i n m s t m' ->
  Forall genuine t ->
  (forall d : D, fst (hw_status TxReady d) = true) ->
  (forall d : D, fst (hw_status RxReady d) = true) ->
  s = SPI_OK.
Proof.
  intros Hrun Hg Htx Hrx. revert Hg.
  induction Hrun as [i m|i n m m' v t ts s Hstep Hrun IH|i n m t Hstep];
    intros Hg.
  - reflexivity.
  - apply Forall_app in Hg. apply IH. apply Hg.
  - exfalso. eapply step_trace_responsive; eassumption.
Qed.

(** A pass of the 16-bit transfer writes its word exactly when the
    peripheral raises transmit-ready within the budget. *)
Lemma transceive_step16_writes K fuel tx_data rx_data len i w :
  (budget <= fuel)%nat ->
  exists r w1 t,
    transceive_step16 K fuel tx_data rx_data len i w = Ret r w1 /\
    trace w1 = trace w ++ t /\
    match fst (poll_until TxReady budget (dev w)) with
    | Some _ =>
        data_writes native_build t = [outgoing_word16 K tx_data len i (mem w)]
    | None => r = Some SPI_ERROR_TIMEOUT /\ data_writes native_build t = []
    end.
Proof.
  intros Hfuel. unfold transceive_step16.
  destruct (waitForTxReady_answers fuel w Hfuel) as (w1 & H1 & Ht1 & Hs1).
  rewrite (bind_Ret _ _ _ _ _ H1); cbv beta.
  pose proof (wait_events_polls TxReady budget
                (fst (poll_until TxReady budget (dev w)))) as Hp1.
  destruct (fst (poll_until TxReady budget (dev w))) as [k1|];
    cbn [gave_up]; cbv iota.
  2:{ eexists. exists w1. eexists. split; [reflexivity|]. split; [exact Ht1|].
      split; [reflexivity|]. apply only_polls_writes. exact Hp1. }
  set (t1 := wait_events TxReady budget (Some k1)) in *.
  assert (Hm1 : mem w1 = mem w) by apply Hs1.
  assert (Hd : (match tx_data with
                | None => ret 255
                | Some p => load16 (p + 2 * Z.of_nat i)
                end) w1
               = Ret (match tx_data with
                      | None => 255
                      | Some p => mem_load16 (mem w) (p + 2 * Z.of_nat i)
                      end) w1).
  { destruct tx_data; [unfold load16; rewrite Hm1|]; reflexivity. }
  rewrite (bind_Ret _ _ _ _ _ Hd); cbv beta zeta.
  fold (outgoing_word16 K tx_data len i (mem w)).
  set (word := outgoing_word16 K tx_data len i (mem w)).
  destruct (reg_write_spec SPI_TDR word w1) as (w2 & H2 & Ht2 & Hs2).
  rewrite (bind_Ret _ _ _ _ _ H2); cbv beta.
  destruct (waitForRxReady_spec fuel w2 Hfuel)
    as (r3 & w3 & t3 & H3 & Ht3 & Hw3 & _ & Hs3).
  rewrite (bind_Ret _ _ _ _ _ H3); cbv beta.
  destruct (wait_trace_polls _ _ _ _ Hw3) as [Hp3 _].
  destruct r3.
  { exists (Some SPI_ERROR_TIMEOUT), w3, (t1 ++ EvWrite SPI_TDR word :: t3).
    split; [reflexivity|]. split.
    { rewrite Ht3, Ht2, Ht1, <- !app_assoc. reflexivity. }
    rewrite data_writes_app.
    change (EvWrite SPI_TDR word :: t3)
      with (EvWrite (tdr native_build) word :: t3).
    rewrite data_writes_tdr.
    rewrite (only_polls_writes native_build t1 Hp1),
            (only_polls_writes native_build t3 Hp3).
    reflexivity. }
  destruct (reg_read_spec SPI_RDR w3) as (v & w4 & H4 & Ht4 & Hs4).
  rewrite (bind_Ret _ _ _ _ _ H4); cbv beta zeta.
  exists None.
  exists (match rx_data with
          | None => w4
          | Some q =>
              mkWorld (sspiLocked w4) (init_comms w4) (irq_enabled w4)
                      (SystemCoreClock w4)
                      (mem_store16 (mem w4) (q + 2 * Z.of_nat i) (u16 v))
                      (dev w4) (trace w4)
          end).
  exists (t1 ++ EvWrite SPI_TDR word :: t3 ++ [EvRead SPI_RDR v]).
  split; [destruct rx_data; reflexivity|]. split.
  { replace (trace match rx_data with
                   | None => w4
                   | Some q => _
                   end) with (trace w4) by (destruct rx_data; reflexivity).
    rewrite Ht4, Ht3, Ht2, Ht1, <- !app_assoc. reflexivity. }
  rewrite data_writes_app.
  change (EvWrite SPI_TDR word :: t3 ++ [EvRead SPI_RDR v])
    with (EvWrite (tdr native_build) word :: t3 ++ [EvRead SPI_RDR v]).
  rewrite data_writes_tdr, data_writes_app.
  rewrite (only_polls_writes native_build t1 Hp1),
          (only_polls_writes native_build t3 Hp3).
  reflexivity.
Qed.

(** X11.  The 16-bit transfer follows the time-out policy of the 8-bit
    one.  A call always returns and has the same shape, pass by pass: every
    wait for transmit-ready and for receive-ready polls with the budget of
    15000 attempts, a pass whose wait uses up the budget ends the call with
    [SPI_ERROR_TIMEOUT] right after the last refused poll, and the status
    is [SPI_OK] exactly when all [len] passes completed.  Every poll in the
    trace is an answer of the peripheral: one that never raises one of the
    flags makes a transfer of at least one word time out, one that raises
    both at every poll makes it succeed.  The lock and the other statics
    are left alone, and a call of length 0 leaves the whole state as it
    was. *)
Theorem transceive_packet16_policy K fuel tx_data rx_data len w :
  (budget <= fuel)%nat ->
  Z.of_nat budget = 15000 /\
  exists s w' t,
    sspi_transceive_packet16 K fuel tx_data rx_data len w = Ret s w' /\
    trace w' = trace w ++ t /\
    run_trace16 K tx_data rx_data len 0 len (mem w) s t (mem w') /\
    Forall genuine t /\
    same_statics w w' /\
    (poll_count t <= len * (2 * budget))%nat /\
    (s = SPI_OK <-> steps_completed t = len) /\
    (s = SPI_ERROR_TIMEOUT <-> (steps_completed t < len)%nat) /\
    (len = 0%nat -> w' = w) /\
    ((0 < len)%nat ->
     (forall d : D, fst (hw_status TxReady d) = false) \/
     (forall d : D, fst (hw_status RxReady d) = false) ->
     s = SPI_ERROR_TIMEOUT /\ (poll_count t <= 2 * budget)%nat) /\
    ((forall d : D, fst (hw_status TxReady d) = true) ->
     (forall d : D, fst (hw_status RxReady d) = true) ->
     s = SPI_OK).
Proof.
  intros Hfuel. split; [exact budget_Z|].
  unfold sspi_transceive_packet16.
  destruct (transceive_loop16_spec K fuel tx_data rx_data len Hfuel len 0%nat w)
    as (s & w' & t & H & Ht & Hg & Hs & Hrun).
  destruct (run_trace16_counts _ _ _ _ _ _ _ _ _ _ Hrun) as (Hstat & Hp & _).
  exists s, w', t. split; [exact H|]. split; [exact Ht|].
  split; [exact Hrun|]. split; [exact Hg|]. split; [exact Hs|].
  split; [exact Hp|].
  split; [|split; [|split; [|split]]].
  - destruct Hstat as [(-> & E)|(-> & E)]; split; intros G;
      try reflexivity; try assumption; try discriminate; lia.
  - destruct Hstat as [(-> & E)|(-> & E)]; split; intros G;
      try reflexivity; try assumption; try discriminate; lia.
  - intros ->. cbn in H. unfold ret in H. injection H as _ <-. reflexivity.
  - intros Hpos Hdead. destruct len as [|n]; [lia|].
    eapply run_trace16_dead; eassumption.
  - intros Htx Hrx. eapply run_trace16_responsive; eassumption.
Qed.

(** X12.  In pass [i] of a 16-bit transfer, whenever the peripheral raises
    transmit-ready within the budget, exactly one word is written to the
    transmit register: the [uint16_t] at index [i] of the outgoing buffer,
    low byte first in RAM, with the last-transfer marker or-ed in exactly
    when [i + 1 = len].  Without an outgoing buffer the word is 0x00FF, not
    0xFFFF: only the low byte of the fill word is set.  Only when the
    peripheral keeps transmit-ready down through the whole budget does the
    pass write nothing, and it then returns [SPI_ERROR_TIMEOUT]. *)
Theorem transceive_packet16_words K fuel tx_data rx_data len i w :
  (budget <= fuel)%nat ->
  Z.of_nat len < 2 ^ 32 ->
  (i < len)%nat ->
  exists r w1 t,
    transceive_step16 K fuel tx_data rx_data len i w = Ret r w1 /\
    trace w1 = trace w ++ t /\
    match fst (poll_until TxReady budget (dev w)) with
    | Some _ =>
        data_writes native_build t
        = [let d := match tx_data with
                    | None => 0x00FF
                    | Some p => u8 (mem w (p + 2 * Z.of_nat i))
                                + 256 * u8 (mem w (p + 2 * Z.of_nat i + 1))
                    end in
           if (S i =? len)%nat then Z.lor d (SPI_TDR_LASTXFER K) else d]
    | None => r = Some SPI_ERROR_TIMEOUT /\ data_writes native_build t = []
    end.
Proof.
  intros Hfuel Hlen Hi.
  destruct (transceive_step16_writes K fuel tx_data rx_data len i w Hfuel)
    as (r & w1 & t & H & Ht & Hcase).
  exists r, w1, t. split; [exact H|]. split; [exact Ht|].
  assert (Hword : outgoing_word16 K tx_data len i (mem w)
    = (let d := match tx_data with
                | None => 0x00FF
                | Some p => u8 (mem w (p + 2 * Z.of_nat i))
                            + 256 * u8 (mem w (p + 2 * Z.of_nat i + 1))
                end in
       if (S i =? len)%nat then Z.lor d (SPI_TDR_LASTXFER K) else d)).
  { unfold outgoing_word16, mem_load16. cbv zeta.
    rewrite u32_small by lia.
    destruct (Z.eqb_spec (Z.of_nat i + 1) (Z.of_nat len)),
             (Nat.eqb_spec (S i) len); try reflexivity; lia. }
  rewrite <- Hword. exact Hcase.
Qed.

(** X13.  What a 16-bit transfer stores: for every completed pass [j] the
    [uint16_t] at index [j] of the incoming buffer holds the low 16 bits of
    the [j]-th value read from the receive register; no byte of RAM outside
    those words changes. *)
Theorem transceive_packet16_stores K fuel tx_data q len w :
  (budget <= fuel)%nat ->
  exists s w' t,
    sspi_transceive_packet16 K fuel tx_data (Some q) len w = Ret s w' /\
    trace w' = trace w ++ t /\
    (length (data_reads native_build t) <= len)%nat /\
    (s = SPI_OK -> length (data_reads native_build t) = len) /\
    (forall j, (j < length (data_reads native_build t))%nat ->
       mem_load16 (mem w') (q + 2 * Z.of_nat j)
       = u16 (nth j (data_reads native_build t) 0)) /\
    (forall a,
       (forall j, (j < length (data_reads native_build t))%nat ->
                  a <> q + 2 * Z.of_nat j /\ a <> q + 2 * Z.of_nat j + 1) ->
       mem w' a = mem w a).
Proof.
  intros Hfuel. unfold sspi_transceive_packet16.
  destruct (transceive_loop16_spec K fuel tx_data (Some q) len Hfuel len 0%nat w)
    as (s & w' & t & H & Ht & _ & _ & Hrun).
  destruct (run_trace16_counts _ _ _ _ _ _ _ _ _ _ Hrun) as (Hstat & _ & R).
  exists s, w', t. split; [exact H|]. split; [exact Ht|].
  split; [destruct Hstat as [(_ & E)|(_ & E)]; lia|].
  split; [intros Hs; destruct Hstat as [(_ & E)|(Hx & _)]; [lia|congruence]|].
  split.
  - intros j Hj. rewrite R in Hj.
    apply (run_trace16_stored _ _ _ _ _ _ _ _ _ _ Hrun q j eq_refl Hj).
  - intros a Ha. apply (run_trace16_frame _ _ _ _ _ _ _ _ _ _ Hrun).
    intros q' j Hq' Hj. injection Hq' as <-. apply Ha. rewrite R. lia.
Qed.

End Transfer16.

(** ** Chip select around a transaction *)

Section Transaction.

Context {D : Type} {HW : SpiHw D}.

Implicit Types (w : world D) (t : list event).

Lemma last_of_snoc {A : Type} (pick : event -> option A) t e :
  last_of pick (t ++ [e])
  = match pick e with Some v => Some v | None => last_of pick t end.
Proof. unfold last_of. rewrite fold_left_app. reflexivity. Qed.

Lemma last_of_none {A : Type} (pick : event -> option A) t :
  Forall (fun e => pick e = None) t -> last_of pick t = None.
Proof.
  intros H. induction t as [|e t IH] using rev_ind; [reflexivity|].
  apply Forall_app in H. destruct H as [Ht He].
  inversion He as [|e' l Hp _]; subst.
  rewrite last_of_snoc, Hp. apply IH. exact Ht.
Qed.

Lemma only_polls_pick_none {A : Type} (pick : event -> option A) t :
  (forall f r, pick (EvPoll f r) = None) ->
  only_polls t -> Forall (fun e => pick e = None) t.
Proof.
  intros Hpick H. induction H as [|e t He _ IH]; constructor; [|exact IH].
  destruct e; try discriminate. apply Hpick.
Qed.

Lemma setup_device_frame b K device spiMode baud_rate w :
  baud_rate <> 0 ->
  exists w' t,
    sspi_master_setup_device b K device spiMode baud_rate w = Ret tt w' /\
    trace w' = trace w ++ t /\
    same_software w w'.
Proof.
  intros Hbaud. apply Z.eqb_neq in Hbaud.
  unfold sspi_master_setup_device, spi_calc_baudrate_div.
  destruct (SAM4E b); symbolic_run; rewrite Hbaud;
    (eexists; eexists; split; [reflexivity|]; split;
     [cbv [trace]; rewrite <- !app_assoc; reflexivity|repeat split]).
Qed.

Lemma select_device_frame b device w :
  exists w' t,
    sspi_select_device b device w = Ret tt w' /\
    trace w' = trace w ++ t /\
    same_software w w'.
Proof.
  unfold sspi_select_device.
  destruct (SAM3XA b); [destruct (id device <? MAX_NUM_WITHOUT_DECODER)|];
    symbolic_run;
    (eexists; eexists; split; [reflexivity|]; split;
     [cbv [trace]; rewrite <- ?app_assoc; reflexivity|repeat split]).
Qed.

Lemma deselect_device_frame b fuel device w :
  (S budget <= fuel)%nat ->
  exists w' t,
    sspi_deselect_device b fuel device w = Ret tt w' /\
    trace w' = trace w ++ t ++ [EvCall (digitalWrite (csPin device) HIGH)] /\
    same_software w w'.
Proof.
  intros Hfuel. unfold sspi_deselect_device.
  destruct (waitForTxEmpty_spec fuel w Hfuel) as (r & w1 & tw & H & Ht & _ & _ & Hs).
  rewrite (bind_Ret _ _ _ _ _ H); cbv beta.
  destruct Hs as (G1 & G2 & G3 & G4 & G5).
  destruct (SAM3XA b).
  - eexists.
    exists (tw ++ [EvCall spi_set_lastxfer;
                   EvCall (spi_set_peripheral_chip_select_value
                             NONE_CHIP_SELECT_ID)]).
    split; [reflexivity|]. split.
    + cbn [trace]. rewrite Ht, <- !app_assoc. reflexivity.
    + repeat split; assumption.
  - eexists. exists tw.
    split; [reflexivity|]. split.
    + cbn [trace]. rewrite Ht, <- !app_assoc. reflexivity.
    + repeat split; assumption.
Qed.

(** X14.  Selecting a device and deselecting it again leaves it
    deselected: the last level driven on its chip-select pin is high, on a
    [SAM3XA] build the chip-select value last set is the no-device value
    (on the other builds none is ever set), nothing has been written to
    the transmit register, and RAM and the statics are as before. *)
Theorem select_deselect_pairing b fuel device w :
  (S budget <= fuel)%nat ->
  exists w' t,
    (sspi_select_device b device ;;; sspi_deselect_device b fuel device) w
      = Ret tt w' /\
    trace w' = trace w ++ t /\
    same_software w w' /\
    last_of (pin_level_of (csPin device)) t = Some HIGH /\
    last_of chip_select_value_of t
      = (if SAM3XA b then Some NONE_CHIP_SELECT_ID else None) /\
    data_writes b t = [].
Proof.
  intros Hfuel.
  destruct (select_device_run b device w) as (w1 & H1 & Ht1).
  destruct (select_device_frame b device w) as (w1' & t1' & H1' & _ & Hs1).
  rewrite H1 in H1'. injection H1' as <-.
  destruct (deselect_device_run b fuel device w1 Hfuel)
    as (w2 & r & tw & H2 & Hw & Ht2).
  destruct (deselect_device_frame b fuel device w1 Hfuel)
    as (w2' & t2' & H2' & _ & Hs2).
  rewrite H2 in H2'. injection H2' as <-.
  destruct (wait_trace_polls _ _ _ _ Hw) as [Hp _].
  eexists. eexists. split; [rewrite (bind_Ret _ _ _ _ _ H1); exact H2|].
  split; [rewrite Ht2, Ht1, <- !app_assoc; reflexivity|].
  split; [eapply same_software_trans; eassumption|].
  split; [|split].
  - rewrite !app_assoc. rewrite last_of_snoc. cbn [pin_level_of].
    rewrite Z.eqb_refl. reflexivity.
  - destruct (SAM3XA b).
    + rewrite !app_assoc. rewrite last_of_snoc. cbn [chip_select_value_of].
      change [EvCall spi_set_lastxfer;
              EvCall (spi_set_peripheral_chip_select_value NONE_CHIP_SELECT_ID)]
        with ([EvCall spi_set_lastxfer]
              ++ [EvCall (spi_set_peripheral_chip_select_value
                            NONE_CHIP_SELECT_ID)]).
      rewrite !app_assoc. rewrite last_of_snoc. reflexivity.
    + cbn [andb app]. apply last_of_none.
      constructor; [reflexivity|].
      apply Forall_app. split.
      * apply only_polls_pick_none; [reflexivity|exact Hp].
      * constructor; [reflexivity|constructor].
  - rewrite !data_writes_app. rewrite (only_polls_writes b tw Hp).
    destruct (SAM3XA b), (id device <? MAX_NUM_WITHOUT_DECODER); reflexivity.
Qed.

(** X15.  A whole transaction on a free bus: acquire, set up, select,
    transfer, deselect, release.  With a non-zero baud rate it always
    returns, whether the transfer succeeded or timed out, and it ends with
    the bus free again, the interrupt mask as it was found and the chip
    select pin of the device driven high last. *)
Theorem transaction_releases_bus b K fuel device spiMode baud_rate
    tx_data rx_data len w :
  (S budget <= fuel)%nat ->
  baud_rate <> 0 ->
  sspiLocked w = false ->
  exists s w' t,
    (got <- sspi_acquire ;;
     if got then
       sspi_master_setup_device b K device spiMode baud_rate ;;;
       sspi_select_device b device ;;;
       s <- sspi_transceive_packet b K fuel tx_data rx_data len ;;
       sspi_deselect_device b fuel device ;;;
       sspi_release ;;;
       ret (Some s)
     else ret None) w = Ret (Some s) w' /\
    sspiLocked w' = false /\
    irq_enabled w' = irq_enabled w /\
    init_comms w' = init_comms w /\
    trace w' = trace w ++ t /\
    last_of (pin_level_of (csPin device)) t = Some HIGH.
Proof.
  intros Hfuel Hbaud Hfree.
  rewrite (bind_Ret _ _ _ _ _ (sspi_acquire_eq w)). rewrite Hfree.
  cbn [negb].
  set (w0 := mkWorld true (init_comms w) (irq_enabled w) (SystemCoreClock w)
                     (mem w) (dev w) (trace w)).
  destruct (setup_device_frame b K device spiMode baud_rate w0 Hbaud)
    as (w1 & t1 & H1 & Ht1 & Hs1).
  rewrite (bind_Ret _ _ _ _ _ H1).
  destruct (select_device_frame b device w1) as (w2 & t2 & H2 & Ht2 & Hs2).
  rewrite (bind_Ret _ _ _ _ _ H2).
  assert (Hfuel' : (budget <= fuel)%nat) by lia.
  destruct (transceive_loop_spec b K fuel tx_data rx_data len Hfuel' len 0%nat w2)
    as (s & w3 & t3 & H3 & Ht3 & _ & Hs3 & _).
  fold (sspi_transceive_packet b K fuel tx_data rx_data len w2) in H3.
  rewrite (bind_Ret _ _ _ _ _ H3).
  destruct (deselect_device_frame b fuel device w3 Hfuel)
    as (w4 & t4 & H4 & Ht4 & Hs4).
  rewrite (bind_Ret _ _ _ _ _ H4).
  exists s. eexists.
  exists (t1 ++ t2 ++ t3 ++ t4 ++ [EvCall (digitalWrite (csPin device) HIGH)]).
  split; [reflexivity|].
  destruct Hs1 as (A1 & A2 & A3 & A4 & A5).
  destruct Hs2 as (B1 & B2 & B3 & B4 & B5).
  destruct Hs3 as (C1 & C2 & C3 & C4).
  destruct Hs4 as (E1 & E2 & E3 & E4 & E5).
  cbn [sspiLocked irq_enabled init_comms trace].
  split; [reflexivity|].
  split; [rewrite E3, C3, B3, A3; reflexivity|].
  split; [rewrite E2, C2, B2, A2; reflexivity|].
  split.
  - rewrite Ht4, Ht3, Ht2, Ht1, <- !app_assoc. reflexivity.
  - rewrite !app_assoc. rewrite last_of_snoc. cbn [pin_level_of].
    rewrite Z.eqb_refl. reflexivity.
Qed.

Lemma wait_trace_events f n r t :
  wait_trace f n r t -> Forall (fun e => exists a, e = EvPoll f a) t.
Proof.
  intros [k Hk|].
  - apply Forall_app. split.
    + induction k; constructor; [eexists; reflexivity|apply IHk; lia].
    + constructor; [eexists; reflexivity|constructor].
  - induction n; constructor; [eexists; reflexivity|assumption].
Qed.

Lemma wait_trace_transfer b f n r t :
  f = TxReady \/ f = RxReady ->
  wait_trace f n r t -> Forall (transfer_event b) t.
Proof.
  intros Hf H. apply wait_trace_events in H.
  eapply Forall_impl; [|exact H].
  intros e [a ->]. exact Hf.
Qed.

Lemma step_trace_transfer b word o t :
  step_trace b word o t -> Forall (transfer_event b) t.
Proof.
  intros H.
  assert (Htx : forall n r t0,
            wait_trace TxReady n r t0 -> Forall (transfer_event b) t0).
  { intros n r t0. apply wait_trace_transfer. left. reflexivity. }
  assert (Hrx : forall n r t0,
            wait_trace RxReady n r t0 -> Forall (transfer_event b) t0).
  { intros n r t0. apply wait_trace_transfer. right. reflexivity. }
  destruct H as [t1 t2 v H1 H2|t1 H1|t1 t2 H1 H2].
  - apply Forall_app. split; [exact (Htx _ _ _ H1)|].
    constructor; [reflexivity|].
    apply Forall_app. split; [exact (Hrx _ _ _ H2)|].
    constructor; [reflexivity|constructor].
  - exact (Htx _ _ _ H1).
  - apply Forall_app. split; [exact (Htx _ _ _ H1)|].
    constructor; [reflexivity|]. exact (Hrx _ _ _ H2).
Qed.

Lemma run_trace_transfer b K tx_data rx_data len i n m s t m' :
  run_trace b K tx_data rx_data len i n m s t m' ->
  Forall (transfer_event b) t.
Proof.
  induction 1 as [i m|i n m m' v t ts s Hstep Hrun IH|i n m t Hstep].
  - constructor.
  - apply Forall_app. split; [eapply step_trace_transfer; eauto|exact IH].
  - eapply step_trace_transfer; eauto.
Qed.

(** X16.  What a transfer never does: all it does to the hardware is poll
    transmit-ready and receive-ready, write the transmit data register and
    read the receive data register.  It calls nothing in the vendor or pin
    layer, so it neither moves a chip-select line nor changes the bus
    configuration, and it never waits for transmit-empty. *)
Theorem transceive_only_moves_data b K fuel tx_data rx_data len w :
  (budget <= fuel)%nat ->
  exists s w' t,
    sspi_transceive_packet b K fuel tx_data rx_data len w = Ret s w' /\
    trace w' = trace w ++ t /\
    Forall (transfer_event b) t /\
    (forall pin, last_of (pin_level_of pin) t = None) /\
    last_of chip_select_value_of t = None.
Proof.
  intros Hfuel. unfold sspi_transceive_packet.
  destruct (transceive_loop_spec b K fuel tx_data rx_data len Hfuel len 0%nat w)
    as (s & w' & t & H & Ht & _ & _ & Hrun).
  pose proof (run_trace_transfer _ _ _ _ _ _ _ _ _ _ _ Hrun) as Hev.
  exists s, w', t. split; [exact H|]. split; [exact Ht|]. split; [exact Hev|].
  split.
  - intros pin. apply last_of_none. eapply Forall_impl; [|exact Hev].
    intros e He. destruct e; try reflexivity. contradiction.
  - apply last_of_none. eapply Forall_impl; [|exact Hev].
    intros e He. destruct e; try reflexivity. contradiction.
Qed.

End Transaction.

(** * The further properties at concrete inputs *)

Lemma ready_waits_boundary_witness :
  (budget <= budget)%nat /\
  exists w',
    waitForTxReady budget (boot DeadBus)
    = Ret (gave_up (fst (poll_until TxReady budget (dev (boot DeadBus))))) w'.
Proof.
  split; [apply le_n|].
  destruct (proj1 (ready_waits_boundary budget (boot DeadBus) (le_n _)))
    as (w' & H & _).
  exists w'. exact H.
Defined.

Lemma empty_wait_boundary_witness :
  (S budget <= S budget)%nat /\
  exists w',
    waitForTxEmpty (S budget) (boot DeadBus)
    = Ret (gave_up (fst (poll_until TxEmpty (S budget) (dev (boot DeadBus))))) w'.
Proof.
  split; [apply le_n|].
  destruct (empty_wait_boundary (S budget) (boot DeadBus) (le_n _))
    as (w' & H & _).
  exists w'. exact H.
Defined.

Lemma setup_device_mode_bits_witness :
  0 <= 7 /\ 1000000 <> 0 /\ SAM4E usart_build = true /\
  sspi_master_setup_device usart_build sam_device_header (mkDevice 0 7 0)
    7 1000000 (boot DeadBus)
  = sspi_master_setup_device usart_build sam_device_header (mkDevice 0 7 0)
      (Z.land 7 3) 1000000 (boot DeadBus).
Proof.
  split; [lia|]. split; [lia|]. split; [reflexivity|].
  apply (proj1 (setup_device_mode_bits usart_build sam_device_header
                  (mkDevice 0 7 0) 7 1000000 (boot DeadBus)
                  ltac:(lia) ltac:(lia))).
  reflexivity.
Defined.

Lemma setup_device_zero_rate_witness :
  SAM4E usart_build = true /\
  sspi_master_setup_device usart_build sam_device_header (mkDevice 0 7 0)
    0 0 (boot DeadBus) = Undefined.
Proof.
  split; [reflexivity|].
  apply (proj1 (setup_device_zero_rate usart_build sam_device_header
                  (mkDevice 0 7 0) 0 0 (boot DeadBus) eq_refl)).
  reflexivity.
Defined.

Lemma transceive_writes_and_reads_witness :
  (budget <= budget)%nat /\
  exists s w' t,
    sspi_transceive_packet native_build sam_device_header budget
      (Some 100) (Some 200) 3 (boot (mkLoopback 0)) = Ret s w' /\
    trace w' = trace (boot (mkLoopback 0)) ++ t /\
    (s = SPI_OK ->
     length (data_writes native_build t) = 3%nat /\
     length (data_reads native_build t) = 3%nat).
Proof.
  split; [apply le_n|].
  destruct (transceive_writes_and_reads native_build sam_device_header budget
              (Some 100) (Some 200) 3 (boot (mkLoopback 0)) (le_n _))
    as (s & w' & t & H & Ht & Hok & _).
  exists s, w', t. split; [exact H|]. split; [exact Ht|exact Hok].
Defined.

Lemma transceive_stores_received_witness :
  (budget <= budget)%nat /\
  exists s w' t,
    sspi_transceive_packet native_build sam_device_header budget
      (Some 100) (Some 200) 3 (boot IdleSlave) = Ret s w' /\
    trace w' = trace (boot IdleSlave) ++ t /\
    forall j, (j < length (data_reads native_build t))%nat ->
      mem w' (200 + Z.of_nat j) = u8 (nth j (data_reads native_build t) 0).
Proof.
  split; [apply le_n|].
  destruct (transceive_stores_received native_build sam_device_header budget
              (Some 100) 200 3 (boot IdleSlave) (le_n _))
    as (s & w' & t & H & Ht & _ & _ & Hst).
  exists s, w', t. split; [exact H|]. split; [exact Ht|exact Hst].
Defined.

Lemma transceive_discards_without_buffer_witness :
  (budget <= budget)%nat /\
  exists s w',
    sspi_transceive_packet native_build sam_device_header budget
      (Some 100) None 3 (boot IdleSlave) = Ret s w' /\
    forall a, mem w' a = mem (boot IdleSlave) a.
Proof.
  split; [apply le_n|].
  destruct (transceive_discards_without_buffer native_build sam_device_header
              budget (Some 100) 3 (boot IdleSlave) (le_n _))
    as (s & w' & t & H & _ & Hm & _).
  exists s, w'. split; [exact H|exact Hm].
Defined.

Lemma transceive_packet16_policy_witness :
  (budget <= budget)%nat /\
  exists s w' t,
    sspi_transceive_packet16 sam_device_header budget
      (Some 100) (Some 200) 3 (boot DeadBus) = Ret s w' /\
    trace w' = trace (boot DeadBus) ++ t /\
    run_trace16 sam_device_header (Some 100) (Some 200) 3 0 3
      (mem (boot DeadBus)) s t (mem w') /\
    s = SPI_ERROR_TIMEOUT /\ (poll_count t <= 2 * budget)%nat.
Proof.
  split; [apply le_n|].
  destruct (proj2 (transceive_packet16_policy sam_device_header budget
                     (Some 100) (Some 200) 3 (boot DeadBus) (le_n _)))
    as (s & w' & t & H & Ht & Hrun & _ & _ & _ & _ & _ & _ & Hdead & _).
  exists s, w', t. split; [exact H|]. split; [exact Ht|].
  split; [exact Hrun|].
  apply Hdead; [lia|]. left. intros d. reflexivity.
Defined.

Lemma transceive_packet16_words_witness :
  (budget <= budget)%nat /\ Z.of_nat 2 < 2 ^ 32 /\ (1 < 2)%nat /\
  exists r w1 t,
    transceive_step16 sam_device_header budget None None 2 1 (boot IdleSlave)
      = Ret r w1 /\
    trace w1 = trace (boot IdleSlave) ++ t /\
    data_writes native_build t
    = [Z.lor 0x00FF (SPI_TDR_LASTXFER sam_device_header)].
Proof.
  split; [apply le_n|]. split; [lia|]. split; [lia|].
  destruct (transceive_packet16_words sam_device_header budget None None 2 1
              (boot IdleSlave) (le_n _) ltac:(lia) ltac:(lia))
    as (r & w1 & t & H & Ht & Hcase).
  exists r, w1, t. split; [exact H|]. split; [exact Ht|].
  assert (Hup : fst (poll_until TxReady budget (dev (boot IdleSlave)))
                = Some 0%nat).
  { destruct budget_succ as (n & Hn & _). rewrite Hn. reflexivity. }
  rewrite Hup in Hcase. exact Hcase.
Defined.

Lemma transceive_packet16_stores_witness :
  (budget <= budget)%nat /\
  exists s w' t,
    sspi_transceive_packet16 sam_device_header budget
      None (Some 200) 3 (boot IdleSlave) = Ret s w' /\
    trace w' = trace (boot IdleSlave) ++ t /\
    forall j, (j < length (data_reads native_build t))%nat ->
      mem_load16 (mem w') (200 + 2 * Z.of_nat j)
      = u16 (nth j (data_reads native_build t) 0).
Proof.
  split; [apply le_n|].
  destruct (transceive_packet16_stores sam_device_header budget
              None 200 3 (boot IdleSlave) (le_n _))
    as (s & w' & t & H & Ht & _ & _ & Hst & _).
  exists s, w', t. split; [exact H|]. split; [exact Ht|exact Hst].
Defined.

Lemma select_deselect_pairing_witness :
  (S budget <= S budget)%nat /\
  exists w' t,
    (sspi_select_device native_build (mkDevice 2 7 0) ;;;
     sspi_deselect_device native_build (S budget) (mkDevice 2 7 0))
      (boot DeadBus) = Ret tt w' /\
    trace w' = trace (boot DeadBus) ++ t /\
    last_of (pin_level_of 7) t = Some HIGH.
Proof.
  split; [apply le_n|].
  destruct (select_deselect_pairing native_build (S budget) (mkDevice 2 7 0)
              (boot DeadBus) (le_n _))
    as (w' & t & H & Ht & _ & Hpin & _).
  exists w', t. split; [exact H|]. split; [exact Ht|exact Hpin].
Defined.

Lemma transaction_releases_bus_witness :
  (S budget <= S budget)%nat /\ 1000000 <> 0 /\
  sspiLocked (boot DeadBus) = false /\
  exists s w',
    (got <- sspi_acquire ;;
     if got then
       sspi_master_setup_device native_build sam_device_header
         (mkDevice 2 7 0) 0 1000000 ;;;
       sspi_select_device native_build (mkDevice 2 7 0) ;;;
       s <- sspi_transceive_packet native_build sam_device_header (S budget)
              (Some 100) (Some 200) 3 ;;
       sspi_deselect_device native_build (S budget) (mkDevice 2 7 0) ;;;
       sspi_release ;;;
       ret (Some s)
     else ret None) (boot DeadBus) = Ret (Some s) w' /\
    sspiLocked w' = false.
Proof.
  split; [apply le_n|]. split; [lia|]. split; [reflexivity|].
  destruct (transaction_releases_bus native_build sam_device_header (S budget)
              (mkDevice 2 7 0) 0 1000000 (Some 100) (Some 200) 3
              (boot DeadBus) (le_n _) ltac:(lia) eq_refl)
    as (s & w' & t & H & Hl & _).
  exists s, w'. split; [exact H|exact Hl].
Defined.

Lemma transceive_only_moves_data_witness :
  (budget <= budget)%nat /\
  exists s w' t,
    sspi_transceive_packet native_build sam_device_header budget
      (Some 100) (Some 200) 3 (boot (mkLoopback 0)) = Ret s w' /\
    trace w' = trace (boot (mkLoopback 0)) ++ t /\
    Forall (transfer_event native_build) t.
Proof.
  split; [apply le_n|].
  destruct (transceive_only_moves_data native_build sam_device_header budget
              (Some 100) (Some 200) 3 (boot (mkLoopback 0)) (le_n _))
    as (s & w' & t & H & Ht & Hev & _).
  exists s, w', t. split; [exact H|]. split; [exact Ht|exact Hev].
Defined.

Lemma transceive_outgoing_words_witness :
  (budget <= budget)%nat /\ Z.of_nat 3 < 2 ^ 32 /\
  hazard_free (Some 100) (Some 100) 3 /\
  exists s w' t,
    sspi_transceive_packet usart_build sam_device_header budget
      (Some 100) (Some 100) 3 (boot IdleSlave) = Ret s w' /\
    trace w' = trace (boot IdleSlave) ++ t /\
    s = SPI_OK /\
    data_writes usart_build t
      = map (tx_word sam_device_header (Some 100) 3 (mem (boot IdleSlave)))
            (seq 0 3).
Proof.
  assert (Hz : hazard_free (Some 100) (Some 100) 3).
  { intros p q j k Hp Hq Hjk. injection Hp as <-. injection Hq as <-. lia. }
  split; [apply le_n|]. split; [lia|]. split; [exact Hz|].
  destruct (proj2 (transceive_outgoing_words usart_build sam_device_header
                     budget (Some 100) (Some 100) 3 (boot IdleSlave) (le_n _)
                     ltac:(lia)) Hz)
    as (s & w' & t & k & H & Ht & _ & _ & _ & Hw & Hok & Hup).
  assert (Hs : s = SPI_OK).
  { apply Hup; intros d; reflexivity. }
  exists s, w', t. split; [exact H|]. split; [exact Ht|]. split; [exact Hs|].
  rewrite Hw, (Hok Hs). reflexivity.
Defined.
